(** * swagexample: the SWAG dataset reader and the dot-product scoring model

    A shallow embedding of [swagexample/readers.py] and
    [swagexample/models.py], and the properties of their specification.

    The repository owns two classes.  Everything they call in the
    framework (tokenizers, embedders, encoders, the accuracy metric), in
    the tensor library (stack, bmm, squeeze, softmax, cross entropy) and in
    the [csv] module is outside the repository: sub-modules handed to the
    constructors are parameters, and the library functions the two classes
    call are modelled from their documented behaviour, each in a module of
    its own ([Csv], [Torch], [Metrics]) that says so. *)

From Stdlib Require Import List String Ascii Bool Arith ZArith Lia.
From Stdlib Require Import Reals Lra.
Import ListNotations.

Set Implicit Arguments.

(** ** Python values, exceptions and dictionaries *)

Module Py.

(** The exceptions the two classes can propagate. *)
Inductive exn : Type :=
| KeyError (key : string)
| AttributeError
| IndexError
| ValueError
| ZeroDivisionError
| RuntimeError
| ConfigurationError (what : string).

(** A computation that returns a value or raises. *)
Inductive result (A : Type) : Type :=
| Ok (a : A)
| Raise (e : exn).
Arguments Ok {A} a.
Arguments Raise {A} e.

Definition bind {A B} (m : result A) (k : A -> result B) : result B :=
  match m with
  | Ok a => k a
  | Raise e => Raise e
  end.

Definition is_ok {A} (m : result A) : bool :=
  match m with
  | Ok _ => true
  | Raise _ => false
  end.

(** The values a [csv.DictReader] row holds: a cell is a [str], a column
    the row is too short for is [None], and the cells beyond the header
    are a list. *)
Inductive value : Type :=
| PyNone
| PyStr (s : string)
| PyInt (z : Z)
| PyList (cells : list string).

(** A dictionary with keys of type [K], in insertion order: assigning to
    a key that is present replaces its value in place. *)
Section Dict.
Variables (K V : Type) (eqb : K -> K -> bool).

Definition dict : Type := list (K * V).

Fixpoint dict_get (k : K) (d : dict) : option V :=
  match d with
  | [] => None
  | (k', v) :: d' => if eqb k k' then Some v else dict_get k d'
  end.

Fixpoint dict_set (k : K) (v : V) (d : dict) : dict :=
  match d with
  | [] => [(k, v)]
  | (k', v') :: d' =>
      if eqb k k' then (k', v) :: d' else (k', v') :: dict_set k v d'
  end.

Definition dict_keys (d : dict) : list K := map fst d.

(** The assignments [d[k] = v] for each pair, from left to right. *)
Definition dict_update (pairs : list (K * V)) (d : dict) : dict :=
  fold_left (fun d kv => dict_set (fst kv) (snd kv) d) pairs d.

(** [dict(pairs)]. *)
Definition dict_of (pairs : list (K * V)) : dict := dict_update pairs [].
End Dict.

End Py.

Import Py.

Declare Scope py_scope.
Delimit Scope py_scope with py.
Notation "x <- m ;; k" := (bind m (fun x => k))
  (at level 61, m at next level, right associativity) : py_scope.
Open Scope py_scope.
Open Scope string_scope.

(** ** The [csv] module *)

Module Csv.

(** A file as [csv.reader] yields it: one list of cells per line, the
    empty list for a blank line.  Splitting the text into cells (quotes,
    delimiters) is the parser's business and is not modelled. *)
Definition row : Type := list string.
Definition file : Type := list row.

(** The keys of a row dictionary: a column name, or [None], the default
    [restkey] under which surplus cells are stored. *)
Definition key : Type := option string.

Definition key_eqb (a b : key) : bool :=
  match a, b with
  | Some x, Some y => String.eqb x y
  | None, None => true
  | _, _ => false
  end.

Definition row_dict : Type := dict key value.

Definition get (k : string) (d : row_dict) : option value :=
  dict_get key_eqb (Some k) d.

(** The body of [DictReader.__next__] once a non-blank row is at hand:
    [d = dict(zip(fieldnames, row))], then the surplus cells go under
    [restkey], or the columns the row does not reach get [restval],
    which is [None]. *)
Definition to_dict (fieldnames : row) (r : row) : row_dict :=
  let d := dict_of key_eqb
             (map (fun kv => (Some (fst kv), PyStr (snd kv)))
                  (combine fieldnames r)) in
  let lf := List.length fieldnames in
  let lr := List.length r in
  if (lf <? lr)%nat then dict_set key_eqb None (PyList (skipn lf r)) d
  else if (lr <? lf)%nat then
    dict_update key_eqb
                (map (fun k => (Some k, PyNone)) (skipn lr fieldnames)) d
  else d.

(** A row has a cell for column [c] when [c] is among the header
    positions the row reaches and at none of those it does not reach. *)
Definition has_cell (fieldnames r : row) (c : string) : bool :=
  existsb (String.eqb c) (firstn (List.length r) fieldnames)
  && negb (existsb (String.eqb c) (skipn (List.length r) fieldnames)).

Definition is_blank (r : row) : bool :=
  match r with
  | [] => true
  | _ :: _ => false
  end.

(** [csv.DictReader(f)] as the sequence it iterates over: the first row
    is the header, blank rows after it are passed over. *)
Definition DictReader (f : file) : list row_dict :=
  match f with
  | [] => []
  | fieldnames :: rows =>
      map (to_dict fieldnames) (filter (fun r => negb (is_blank r)) rows)
  end.

End Csv.

(** ** [swagexample/readers.py] *)

Module Readers.

Section Reader.

(** What the framework supplies: tokens, token indexers, and the
    defaults the constructor falls back on. *)
Variables (Token TokenIndexers : Type).

(** A tokenizer: the tokens [tokenize] returns for a [str], and what it
    does with a value that is not one, which is the tokenizer's own
    business (as a rule an exception of the class its code runs into). *)
Record Tokenizer : Type := {
  tokenize_text : string -> list Token;
  tokenize_other : value -> result (list Token)
}.

Variable WordTokenizer : Tokenizer.
Variable SingleIdTokenIndexer : TokenIndexers.

Inductive Field : Type :=
| TextField (tokens : list Token) (indexers : TokenIndexers)
| LabelField (label : value).

(** [LabelField(label)] of the framework, which indexes its label: the
    label has to be a [str]. *)
Definition label_field (label : value) : result Field :=
  match label with
  | PyStr _ => Ok (LabelField label)
  | _ =>
      Raise (ConfigurationError
               "LabelFields must be passed a string label if skip_indexing=False.")
  end.

(** [Instance(fields)]: the dictionary of named fields. *)
Definition Instance : Type := dict string Field.

Definition field (name : string) (i : Instance) : option Field :=
  dict_get String.eqb name i.

Record SWAGDatasetReader : Type := {
  lazy : bool;
  tokenizer : Tokenizer;
  token_indexers : TokenIndexers
}.

(** [__init__]: [tokenizer or WordTokenizer()] and
    [token_indexers or {'tokens': SingleIdTokenIndexer()}]. *)
Definition __init__ (lazy : bool)
    (tokenizer : option Tokenizer)
    (token_indexers : option TokenIndexers) : SWAGDatasetReader :=
  {| lazy := lazy;
     tokenizer := match tokenizer with
                  | Some t => t
                  | None => WordTokenizer
                  end;
     token_indexers := match token_indexers with
                       | Some ti => ti
                       | None => SingleIdTokenIndexer
                       end |}.

Variable self : SWAGDatasetReader.

(** [self.tokenizer.tokenize(text)]: the tokens of a [str]; what a short
    row hands it instead ([None]) is left to the tokenizer. *)
Definition tokenize (text : value) : result (list Token) :=
  match text with
  | PyStr s => Ok (tokenize_text (tokenizer self) s)
  | _ => tokenize_other (tokenizer self) text
  end.

Definition text_field (text : value) : result Field :=
  toks <- tokenize text ;;
  Ok (TextField toks (token_indexers self)).

(** [text_to_instance]: the five text fields, in the order of the
    dictionary display, and the label field when [label is not None],
    which [LabelField] then has to accept. *)
Definition text_to_instance
    (startphrase ending0 ending1 ending2 ending3 label : value)
  : result Instance :=
  f <- text_field startphrase ;;
  f0 <- text_field ending0 ;;
  f1 <- text_field ending1 ;;
  f2 <- text_field ending2 ;;
  f3 <- text_field ending3 ;;
  let fields :=
    [("startphrase", f); ("ending0", f0); ("ending1", f1);
     ("ending2", f2); ("ending3", f3)] in
  match label with
  | PyNone => Ok fields
  | _ =>
      l <- label_field label ;;
      Ok (dict_set String.eqb "label" l fields)
  end.

(** The columns [_read] indexes each row with. *)
Definition text_columns : list string :=
  ["startphrase"; "ending0"; "ending1"; "ending2"; "ending3"].

(** The five text fields of an instance, from their tokens. *)
Definition token_fields (t t0 t1 t2 t3 : list Token) : Instance :=
  [("startphrase", TextField t (token_indexers self));
   ("ending0", TextField t0 (token_indexers self));
   ("ending1", TextField t1 (token_indexers self));
   ("ending2", TextField t2 (token_indexers self));
   ("ending3", TextField t3 (token_indexers self))].

(** The five text fields of an instance, from the five texts. *)
Definition text_fields (startphrase ending0 ending1 ending2 ending3 : string)
  : Instance :=
  token_fields (tokenize_text (tokenizer self) startphrase)
               (tokenize_text (tokenizer self) ending0)
               (tokenize_text (tokenizer self) ending1)
               (tokenize_text (tokenizer self) ending2)
               (tokenize_text (tokenizer self) ending3).

(** [row[k]] raises [KeyError] on a missing key. *)
Definition getitem (d : Csv.row_dict) (k : string) : result value :=
  match Csv.get k d with
  | Some v => Ok v
  | None => Raise (KeyError k)
  end.

(** [row.get(k)] is [None] on a missing key. *)
Definition get_or_none (d : Csv.row_dict) (k : string) : value :=
  match Csv.get k d with
  | Some v => v
  | None => PyNone
  end.

(** The body of the loop of [_read]: the argument expressions are
    evaluated from left to right, then the instance is built. *)
Definition read_row (d : Csv.row_dict) : result Instance :=
  startphrase <- getitem d "startphrase" ;;
  ending0 <- getitem d "ending0" ;;
  ending1 <- getitem d "ending1" ;;
  ending2 <- getitem d "ending2" ;;
  ending3 <- getitem d "ending3" ;;
  text_to_instance startphrase ending0 ending1 ending2 ending3
                   (get_or_none d "label").

(** A generator run to its end: the values it yielded, and the
    exception that stopped it, if one did. *)
Definition generated (A : Type) : Type := (list A * option exn)%type.

Fixpoint read_rows (rows : list Csv.row_dict) : generated Instance :=
  match rows with
  | [] => ([], None)
  | d :: rows' =>
      match read_row d with
      | Ok i => let (yielded, e) := read_rows rows' in (i :: yielded, e)
      | Raise e => ([], Some e)
      end
  end.

(** [_read], on the content of the file at [file_path]. *)
Definition _read (f : Csv.file) : generated Instance :=
  read_rows (Csv.DictReader f).

End Reader.

End Readers.

(** ** The tensor library *)

Module Torch.

(** A tensor is its shape and its elements in row-major order; a float
    tensor holds reals, an integer tensor holds integers.  The arithmetic
    of a float tensor is the exact arithmetic of the reals: the rounding,
    the overflow and the underflow of 32-bit floats are not modelled, and
    what is proved of [softmax_m1] and [CrossEntropyLoss] is proved over
    the reals. *)
Record tensor (A : Type) : Type := Tensor {
  shape : list nat;
  data : list A
}.
Arguments Tensor {A} shape data.

Definition FloatTensor : Type := tensor R.
Definition LongTensor : Type := tensor Z.

Definition numel (s : list nat) : nat := fold_right Nat.mul 1%nat s.

Definition dim {A} (t : tensor A) : nat := List.length (shape t).

Fixpoint shape_eqb (s1 s2 : list nat) : bool :=
  match s1, s2 with
  | [], [] => true
  | d1 :: s1', d2 :: s2' => (d1 =? d2)%nat && shape_eqb s1' s2'
  | _, _ => false
  end.

(** The leading dimensions and the last one; [None] for a scalar. *)
Fixpoint split_last (s : list nat) : option (list nat * nat) :=
  match s with
  | [] => None
  | d :: s' =>
      match split_last s' with
      | None => Some ([], d)
      | Some (pre, l) => Some (d :: pre, l)
      end
  end.

(** Row [r] of a sequence laid out in rows of [d] elements. *)
Definition row {A} (d : nat) (xs : list A) (r : nat) : list A :=
  firstn d (skipn (r * d) xs).

Definition rows {A} (d n : nat) (xs : list A) : list (list A) :=
  map (row d xs) (seq 0 n).

(** [torch.stack(ts, dim=-2)]: the tensors must have one shape, of at
    least one dimension; the new dimension goes before the last one, so
    that row [r] of the result is row [r] of each tensor in turn. *)
Definition stack_m2 {A} (ts : list (tensor A)) : result (tensor A) :=
  match ts with
  | [] => Raise RuntimeError
  | t :: _ =>
      if forallb (fun t' => shape_eqb (shape t') (shape t)) ts then
        match split_last (shape t) with
        | None => Raise IndexError
        | Some (pre, d) =>
            Ok (Tensor (pre ++ [List.length ts; d])
                       (flat_map
                          (fun r => flat_map (fun t' => row d (data t') r) ts)
                          (seq 0 (numel pre))))
        end
      else Raise RuntimeError
  end.

(** [t.unsqueeze(-1)]. *)
Definition unsqueeze_m1 {A} (t : tensor A) : tensor A :=
  Tensor (shape t ++ [1%nat]) (data t).

(** [t.squeeze()]: every dimension of size one is removed. *)
Definition squeeze {A} (t : tensor A) : tensor A :=
  Tensor (filter (fun d => negb (d =? 1)%nat) (shape t)) (data t).

(** [t.view(-1)]. *)
Definition view_m1 {A} (t : tensor A) : tensor A :=
  Tensor [numel (shape t)] (data t).

Definition sum (xs : list R) : R := fold_right Rplus 0%R xs.

Definition dot (u v : list R) : R :=
  sum (map (fun xy => (fst xy * snd xy)%R) (combine u v)).

(** [a.bmm(b)]: [a] is [B x n x m], [b] is [B x m x p], and the result is
    the [B] matrix products. *)
Definition bmm (a b : FloatTensor) : result FloatTensor :=
  match shape a, shape b with
  | [ba; n; m], [bb; m'; p] =>
      if ((ba =? bb) && (m =? m'))%nat then
        Ok (Tensor [ba; n; p]
              (flat_map (fun x =>
                 flat_map (fun i =>
                   map (fun j =>
                          sum (map (fun k =>
                                 (nth ((x * n + i) * m + k) (data a) 0
                                  * nth ((x * m + k) * p + j) (data b) 0)%R)
                               (seq 0 m)))
                       (seq 0 p))
                   (seq 0 n))
                 (seq 0 ba)))
      else Raise RuntimeError
  | _, _ => Raise RuntimeError
  end.

(** The scores the specification describes, for [B x D] tensors: for
    each example of the batch in turn, the dot product of each of its
    four ending vectors with its startphrase vector. *)
Definition dot_products (B D : nat) (s e0 e1 e2 e3 : FloatTensor)
  : list R :=
  flat_map (fun b => [dot (row D (data e0) b) (row D (data s) b);
                      dot (row D (data e1) b) (row D (data s) b);
                      dot (row D (data e2) b) (row D (data s) b);
                      dot (row D (data e3) b) (row D (data s) b)])
           (seq 0 B).

Definition softmax_vec (v : list R) : list R :=
  let z := sum (map exp v) in
  map (fun x => (exp x / z)%R) v.

(** [softmax(t, dim=-1)]: each row along the last dimension is
    normalised; a scalar is a row of one.  Over the reals every
    probability is positive; in 32-bit floats the exponential of a score
    far below the greatest one underflows to zero. *)
Definition softmax_m1 (t : FloatTensor) : FloatTensor :=
  match split_last (shape t) with
  | None => Tensor (shape t) (softmax_vec (data t))
  | Some (pre, d) =>
      Tensor (shape t)
             (flat_map softmax_vec (rows d (numel pre) (data t)))
  end.

(** A floating-point scalar: a real, or the not-a-number that the mean of
    nothing is. *)
Inductive float : Type :=
| Num (x : R)
| NaN.

Definition ignore_index : Z := (-100)%Z.

(** [log_softmax] of a row: each score less the logarithm of the sum of
    the exponentials of the scores. *)
Definition log_softmax_vec (v : list R) : list R :=
  let z := ln (sum (map exp v)) in
  map (fun x => (x - z)%R) v.

(** The loss of one example, as the cross entropy computes it: minus the
    entry of the target class in the [log_softmax] of the scores.  The
    probabilities that [forward] returns are not used. *)
Definition nll (scores : list R) (target : Z) : R :=
  (- nth (Z.to_nat target) (log_softmax_vec scores) 0)%R.

(** [torch.nn.CrossEntropyLoss()(input, target)], with the default mean
    reduction and [ignore_index], for a target of one dimension: the
    input is [N x C], the target has [N] entries, each a class in
    [0, C) or [ignore_index]; the result is the mean loss of the
    examples that are not ignored.  A target of another length than [N]
    is refused by the batch size check ([ValueError]), a target that is
    no class by the kernel ([IndexError]), and an input without a class
    dimension, such as the squeezed logits of a batch of one, when the
    softmax over dimension 1 is taken ([RuntimeError]). *)
Definition CrossEntropyLoss (input : FloatTensor) (target : LongTensor)
  : result float :=
  match shape input, shape target with
  | [n; c], [n'] =>
      if (n =? n')%nat then
        if forallb (fun t => (t =? ignore_index)%Z
                             || ((0 <=? t)%Z && (t <? Z.of_nat c)%Z))
                   (data target)
        then
          let kept := filter (fun st => negb (snd st =? ignore_index)%Z)
                             (combine (rows c n (data input))
                                      (data target)) in
          match kept with
          | [] => Ok NaN
          | _ :: _ =>
              Ok (Num (sum (map (fun st => nll (fst st) (snd st)) kept)
                       / INR (List.length kept)))
          end
        else Raise IndexError
      else Raise ValueError
  | _, _ => Raise RuntimeError
  end.

(** The index of the first greatest element. *)
Fixpoint argmax_from (best : R) (ibest i : nat) (xs : list R) : nat :=
  match xs with
  | [] => ibest
  | x :: xs' =>
      if Rlt_dec best x then argmax_from x i (S i) xs'
      else argmax_from best ibest (S i) xs'
  end.

Definition argmax (xs : list R) : nat :=
  match xs with
  | [] => 0%nat
  | x :: xs' => argmax_from x 0%nat 1%nat xs'
  end.

End Torch.

(** ** The framework's accuracy metric *)

Module Metrics.
Import Torch.

(** [CategoricalAccuracy()], with [top_k = 1]: two running counts. *)
Record CategoricalAccuracy : Type := {
  correct_count : nat;
  total_count : nat
}.

Definition fresh : CategoricalAccuracy :=
  {| correct_count := 0; total_count := 0 |}.

Definition reset (a : CategoricalAccuracy) : CategoricalAccuracy := fresh.

(** [__call__(predictions, gold_labels)]: the gold labels have one
    dimension fewer than the predictions and none reaches the number of
    classes; each position counts, and counts as correct when the first
    greatest score is at the gold index.  Gold labels of another shape
    than the leading dimensions of the predictions are refused (the
    library would try to broadcast them). *)
Definition call (a : CategoricalAccuracy)
    (predictions : FloatTensor) (gold_labels : LongTensor)
  : result CategoricalAccuracy :=
  match split_last (shape predictions) with
  | None => Raise IndexError
  | Some (pre, num_classes) =>
      if negb (dim gold_labels =? dim predictions - 1)%nat then
        Raise (ConfigurationError
                 "gold_labels must have dimension == predictions.size() - 1")
      else if existsb (fun t => (Z.of_nat num_classes <=? t)%Z)
                      (data gold_labels) then
        Raise (ConfigurationError
                 "A gold label passed to Categorical Accuracy contains an id >= the number of classes.")
      else if shape_eqb (shape gold_labels) pre then
        let top := map argmax
                       (rows num_classes (numel pre) (data predictions)) in
        let correct :=
          filter (fun pt => (Z.of_nat (fst pt) =? snd pt)%Z)
                 (combine top (data gold_labels)) in
        Ok {| correct_count := correct_count a + List.length correct;
              total_count := total_count a + numel (shape gold_labels) |}
      else Raise RuntimeError
  end.

(** [get_metric(reset)], as the releases of the framework that guard the
    division have it: the ratio of the counts, zero before anything was
    counted, and the metric afterwards. *)
Definition get_metric (a : CategoricalAccuracy) (reset_it : bool)
  : R * CategoricalAccuracy :=
  let accuracy :=
    if (0 <? total_count a)%nat
    then (INR (correct_count a) / INR (total_count a))%R
    else 0%R in
  (accuracy, if reset_it then reset a else a).

(** [get_metric(reset)], as the earlier releases of the framework have
    it: the counts are divided without a guard, so that before anything
    was counted the division raises and the reset is not reached. *)
Definition get_metric_unguarded (a : CategoricalAccuracy) (reset_it : bool)
  : result R * CategoricalAccuracy :=
  if (0 <? total_count a)%nat
  then (Ok (INR (correct_count a) / INR (total_count a))%R,
        if reset_it then reset a else a)
  else (Raise ZeroDivisionError, a).

End Metrics.

(** ** [swagexample/models.py] *)

Module Models.
Import Torch.

(** [check_dimensions_match] of the framework. *)
Definition check_dimensions_match (dimension_1 dimension_2 : nat)
    (dim_1_name dim_2_name : string) : result unit :=
  if (dimension_1 =? dimension_2)%nat then Ok tt
  else Raise (ConfigurationError
                (dim_1_name ++ " must match " ++ dim_2_name)).

(** The shape [squeeze] leaves of the [B x 4 x 1] product: [B x 4],
    but only [4] for a batch of one example. *)
Definition logits_shape (B : nat) : list nat :=
  if (B =? 1)%nat then [4%nat] else [B; 4%nat].

Section Model.

(** What the framework supplies: the vocabulary, the regularizer, the
    batched text field (a dictionary of token-index tensors), the batch
    metadata, and the mask of a text field. *)
Variables (Vocabulary RegularizerApplicator TextFieldTensors Metadata : Type).
Variable get_text_field_mask : TextFieldTensors -> LongTensor.

(** The sub-modules, each with the dimensions it declares and the
    function it computes with its current weights. *)
Record TextFieldEmbedder : Type := {
  embedder_output_dim : nat;
  embed : TextFieldTensors -> FloatTensor
}.

Record Seq2VecEncoder : Type := {
  get_input_dim : nat;
  get_output_dim : nat;
  encode : FloatTensor -> LongTensor -> FloatTensor
}.

Record SimilarityFunction : Type := {
  compute_similarity : FloatTensor -> FloatTensor -> FloatTensor
}.

(** The model object: the attributes [Model.__init__] keeps and the
    ones [__init__] binds.  [xentropy] has no state and is the
    function [CrossEntropyLoss]. *)
Record SWAGExampleModel : Type := {
  vocab : Vocabulary;
  regularizer : option RegularizerApplicator;
  text_field_embedder : TextFieldEmbedder;
  startphrase_encoder : Seq2VecEncoder;
  ending_encoder : Seq2VecEncoder;
  similarity : SimilarityFunction;
  accuracy : Metrics.CategoricalAccuracy
}.

(** An [InitializerApplicator] re-initialises the weights of each
    sub-module, parameter by parameter; it changes nothing else. *)
Record InitializerApplicator : Type := {
  init_text_field_embedder :
    (TextFieldTensors -> FloatTensor) -> TextFieldTensors -> FloatTensor;
  init_startphrase_encoder :
    (FloatTensor -> LongTensor -> FloatTensor) ->
    FloatTensor -> LongTensor -> FloatTensor;
  init_ending_encoder :
    (FloatTensor -> LongTensor -> FloatTensor) ->
    FloatTensor -> LongTensor -> FloatTensor;
  init_similarity :
    (FloatTensor -> FloatTensor -> FloatTensor) ->
    FloatTensor -> FloatTensor -> FloatTensor
}.

Definition initialize (i : InitializerApplicator) (m : SWAGExampleModel)
  : SWAGExampleModel :=
  {| vocab := vocab m;
     regularizer := regularizer m;
     text_field_embedder :=
       {| embedder_output_dim := embedder_output_dim (text_field_embedder m);
          embed := init_text_field_embedder i
                     (embed (text_field_embedder m)) |};
     startphrase_encoder :=
       {| get_input_dim := get_input_dim (startphrase_encoder m);
          get_output_dim := get_output_dim (startphrase_encoder m);
          encode := init_startphrase_encoder i
                      (encode (startphrase_encoder m)) |};
     ending_encoder :=
       {| get_input_dim := get_input_dim (ending_encoder m);
          get_output_dim := get_output_dim (ending_encoder m);
          encode := init_ending_encoder i (encode (ending_encoder m)) |};
     similarity :=
       {| compute_similarity :=
            init_similarity i (compute_similarity (similarity m)) |};
     accuracy := accuracy m |}.

Definition __init__
    (vocab : Vocabulary)
    (text_field_embedder : TextFieldEmbedder)
    (startphrase_encoder ending_encoder : Seq2VecEncoder)
    (similarity : SimilarityFunction)
    (initializer : InitializerApplicator)
    (regularizer : option RegularizerApplicator)
  : result SWAGExampleModel :=
  _ <- check_dimensions_match
         (embedder_output_dim text_field_embedder)
         (get_input_dim startphrase_encoder)
         "text field embedding dim"
         "startphrase encoder input dim" ;;
  _ <- check_dimensions_match
         (embedder_output_dim text_field_embedder)
         (get_input_dim ending_encoder)
         "text field embedding dim"
         "ending encoder input dim" ;;
  _ <- check_dimensions_match
         (get_output_dim startphrase_encoder)
         (get_output_dim ending_encoder)
         "startphrase embedding dim"
         "ending embedding dim" ;;
  Ok (initialize initializer
        {| vocab := vocab;
           regularizer := regularizer;
           text_field_embedder := text_field_embedder;
           startphrase_encoder := startphrase_encoder;
           ending_encoder := ending_encoder;
           similarity := similarity;
           accuracy := Metrics.fresh |}).

(** The values of the output dictionary. *)
Inductive output : Type :=
| OutTensor (t : FloatTensor)
| OutLoss (l : float)
| OutNone.

Definition set_accuracy (self : SWAGExampleModel)
    (a : Metrics.CategoricalAccuracy) : SWAGExampleModel :=
  {| vocab := vocab self;
     regularizer := regularizer self;
     text_field_embedder := text_field_embedder self;
     startphrase_encoder := startphrase_encoder self;
     ending_encoder := ending_encoder self;
     similarity := similarity self;
     accuracy := a |}.

(** The first part of [forward], up to the logits: embed the five
    fields, encode them, and multiply the stacked endings by the
    startphrase. *)
Definition forward_logits (self : SWAGExampleModel)
    (startphrase ending0 ending1 ending2 ending3 : TextFieldTensors)
  : result FloatTensor :=
  let startphrase_initial := embed (text_field_embedder self) startphrase in
  let ending0_initial := embed (text_field_embedder self) ending0 in
  let ending1_initial := embed (text_field_embedder self) ending1 in
  let ending2_initial := embed (text_field_embedder self) ending2 in
  let ending3_initial := embed (text_field_embedder self) ending3 in
  let startphrase_embedding :=
    encode (startphrase_encoder self) startphrase_initial
           (get_text_field_mask startphrase) in
  let ending0_embedding :=
    encode (ending_encoder self) ending0_initial
           (get_text_field_mask ending0) in
  let ending1_embedding :=
    encode (ending_encoder self) ending1_initial
           (get_text_field_mask ending1) in
  let ending2_embedding :=
    encode (ending_encoder self) ending2_initial
           (get_text_field_mask ending2) in
  let ending3_embedding :=
    encode (ending_encoder self) ending3_initial
           (get_text_field_mask ending3) in
  stacked <- stack_m2 [ending0_embedding; ending1_embedding;
                       ending2_embedding; ending3_embedding] ;;
  product <- bmm stacked (unsqueeze_m1 startphrase_embedding) ;;
  Ok (squeeze product).

(** [forward]: the output dictionary, or the exception raised, and the
    model object afterwards. *)
Definition forward (self : SWAGExampleModel)
    (startphrase ending0 ending1 ending2 ending3 : TextFieldTensors)
    (label : option LongTensor) (metadata : option Metadata)
  : result (dict string output) * SWAGExampleModel :=
  match forward_logits self startphrase ending0 ending1 ending2 ending3 with
  | Raise e => (Raise e, self)
  | Ok logits =>
      let probabilities := softmax_m1 logits in
      match label with
      | Some label =>
          (* [label.long().view(-1)]: the conversion to 64-bit integers
             keeps the values *)
          match CrossEntropyLoss logits (view_m1 label) with
          | Raise e => (Raise e, self)
          | Ok loss =>
              match Metrics.call (accuracy self) logits label with
              | Raise e => (Raise e, self)
              | Ok a =>
                  (Ok [("logits", OutTensor logits);
                       ("probabilities", OutTensor probabilities);
                       ("loss", OutLoss loss)],
                   set_accuracy self a)
              end
          end
      | None =>
          (Ok [("logits", OutTensor logits);
               ("probabilities", OutTensor probabilities);
               ("loss", OutNone)],
           self)
      end
  end.

(** [get_metrics]. *)
Definition get_metrics (self : SWAGExampleModel) (reset : bool)
  : dict string R * SWAGExampleModel :=
  let (value, a) := Metrics.get_metric (accuracy self) reset in
  ([("accuracy", value)], set_accuracy self a).

(** [get_metrics], over a release of the framework whose accuracy divides
    without the guard. *)
Definition get_metrics_unguarded (self : SWAGExampleModel) (reset : bool)
  : result (dict string R) * SWAGExampleModel :=
  let (value, a) := Metrics.get_metric_unguarded (accuracy self) reset in
  (match value with
   | Ok v => Ok [("accuracy", v)]
   | Raise e => Raise e
   end,
   set_accuracy self a).

(** The arguments of one call of [forward]. *)
Record batch : Type := {
  batch_startphrase : TextFieldTensors;
  batch_ending0 : TextFieldTensors;
  batch_ending1 : TextFieldTensors;
  batch_ending2 : TextFieldTensors;
  batch_ending3 : TextFieldTensors;
  batch_label : option LongTensor;
  batch_metadata : option Metadata
}.

Definition forward_batch (self : SWAGExampleModel) (b : batch)
  : result (dict string output) * SWAGExampleModel :=
  forward self (batch_startphrase b) (batch_ending0 b) (batch_ending1 b)
          (batch_ending2 b) (batch_ending3 b) (batch_label b)
          (batch_metadata b).

(** A sequence of calls of [forward] on one model object: what each
    call returns, and the object after the last. *)
Fixpoint forward_each (self : SWAGExampleModel) (batches : list batch)
  : list (result (dict string output)) * SWAGExampleModel :=
  match batches with
  | [] => ([], self)
  | b :: batches' =>
      let (out, self') := forward_batch self b in
      let (outs, self'') := forward_each self' batches' in
      (out :: outs, self'')
  end.

(** The vector of the startphrase and the vector of an ending, as
    [forward] computes them: the shared embedder, then the encoder of
    the startphrase or the encoder of the endings. *)
Definition encoded_startphrase (self : SWAGExampleModel)
    (startphrase : TextFieldTensors) : FloatTensor :=
  encode (startphrase_encoder self)
         (embed (text_field_embedder self) startphrase)
         (get_text_field_mask startphrase).

Definition encoded_ending (self : SWAGExampleModel)
    (ending : TextFieldTensors) : FloatTensor :=
  encode (ending_encoder self)
         (embed (text_field_embedder self) ending)
         (get_text_field_mask ending).

(** What a sequence-to-vector encoder returns for a batch of [B]
    sequences: a [B x D] tensor. *)
Definition is_batch (B D : nat) (t : FloatTensor) : Prop :=
  shape t = [B; D] /\ List.length (data t) = (B * D)%nat.

Definition encodes_batch (self : SWAGExampleModel) (B D : nat)
    (startphrase ending0 ending1 ending2 ending3 : TextFieldTensors)
  : Prop :=
  is_batch B D (encoded_startphrase self startphrase)
  /\ is_batch B D (encoded_ending self ending0)
  /\ is_batch B D (encoded_ending self ending1)
  /\ is_batch B D (encoded_ending self ending2)
  /\ is_batch B D (encoded_ending self ending3).

End Model.

End Models.

(** ** Concrete readers, models and inputs

    The instances the closed statements below are evaluated on. *)

Module Fixtures.
Import Torch Models.

(** A tokenizer that splits at spaces. *)
Fixpoint split_words (word : string) (s : string) : list string :=
  match s with
  | EmptyString =>
      match word with
      | EmptyString => []
      | _ => [word]
      end
  | String c s' =>
      if Ascii.eqb c " "%char then
        match word with
        | EmptyString => split_words EmptyString s'
        | _ => word :: split_words EmptyString s'
        end
      else split_words (word ++ String c EmptyString) s'
  end.

Definition whitespace_tokenizer (s : string) : list string :=
  split_words EmptyString s.

(** As a tokenizer: [text.split()] on a value that is not a [str] finds
    no such method. *)
Definition split_at_spaces : Readers.Tokenizer string :=
  {| Readers.tokenize_text := whitespace_tokenizer;
     Readers.tokenize_other := fun _ => Raise AttributeError |}.

(** The reader built with the defaults. *)
Definition reader : Readers.SWAGDatasetReader string unit :=
  Readers.__init__ split_at_spaces tt false None None.

Definition text_header : Csv.row :=
  ["startphrase"; "ending0"; "ending1"; "ending2"; "ending3"].

Definition labelled_header : Csv.row := (text_header ++ ["label"])%list.

Definition sitting_man (label : string) : Csv.row :=
  ["A man is sitting."; "He stands up."; "He flies away.";
   "He eats soup."; "He sleeps."; label].

(** A data row that stops after two cells. *)
Definition short_row : Csv.row := ["A man is sitting."; "He stands up."].

(** A batched text field is the tensor of its token indices. *)
Definition token_mask (t : LongTensor) : LongTensor :=
  Tensor (shape t) (map (fun z => if (z =? 0)%Z then 0%Z else 1%Z) (data t)).

(** An embedder of dimension one: a token index is its own embedding. *)
Definition index_embedder : TextFieldEmbedder LongTensor :=
  {| embedder_output_dim := 1;
     embed := fun t => Tensor (shape t ++ [1%nat]) (map IZR (data t)) |}.

(** A bag-of-embeddings encoder of dimension one: the sum of the
    embeddings of each sequence. *)
Definition bag_of_embeddings : Seq2VecEncoder :=
  {| get_input_dim := 1;
     get_output_dim := 1;
     encode := fun x _ =>
       match shape x with
       | [b; l; _] => Tensor [b; 1%nat] (map sum (rows l b (data x)))
       | _ => x
       end |}.

(** An encoder that declares an output of two dimensions. *)
Definition wide_encoder : Seq2VecEncoder :=
  {| get_input_dim := 1;
     get_output_dim := 2;
     encode := fun x _ => x |}.

Definition first_argument : SimilarityFunction :=
  {| compute_similarity := fun a _ => a |}.

Definition second_argument : SimilarityFunction :=
  {| compute_similarity := fun _ b => b |}.

Definition keep_weights : InitializerApplicator LongTensor :=
  {| init_text_field_embedder := fun f => f;
     init_startphrase_encoder := fun f => f;
     init_ending_encoder := fun f => f;
     init_similarity := fun f => f |}.

Definition model_with (s : SimilarityFunction)
  : SWAGExampleModel unit unit LongTensor :=
  {| vocab := tt;
     regularizer := None;
     text_field_embedder := index_embedder;
     startphrase_encoder := bag_of_embeddings;
     ending_encoder := bag_of_embeddings;
     similarity := s;
     accuracy := Metrics.fresh |}.

Definition model : SWAGExampleModel unit unit LongTensor :=
  model_with first_argument.

(** A batch of one example: each field holds one sequence of two
    tokens. *)
Definition one (a b : Z) : LongTensor := Tensor [1%nat; 2%nat] [a; b].

(** A batch of two examples. *)
Definition two (a b c d : Z) : LongTensor :=
  Tensor [2%nat; 2%nat] [a; b; c; d].

Definition forward_one (label : option LongTensor) :=
  forward (Metadata := unit) token_mask model
          (one 1 2) (one 3 4) (one 5 6) (one 7 8) (one 1 1) label None.

Definition forward_two (label : option LongTensor) :=
  forward (Metadata := unit) token_mask model
          (two 1 2 2 1) (two 3 4 1 1) (two 5 6 2 2) (two 7 8 3 3)
          (two 1 1 4 4) label None.

End Fixtures.

(** ** Helper predicates of the reader *)

Module ReadersAux.

(** A label that [text_to_instance] can take: [None] or a [str]. *)
Definition is_label (v : value) : bool :=
  match v with
  | PyNone | PyStr _ => true
  | _ => false
  end.

(** The first of the text columns that a header lacks. *)
Definition first_missing_column (fieldnames : Csv.row) : option string :=
  find (fun c => negb (existsb (String.eqb c) fieldnames))
       Readers.text_columns.

End ReadersAux.

(** ** Helper predicates of the model *)

Module ModelsAux.
Import Torch Models.

Section Model.
Variables (Vocabulary RegularizerApplicator TextFieldTensors : Type).
Variable get_text_field_mask : TextFieldTensors -> LongTensor.

(** The invariant of the specification: the embedder feeds both encoders
    and the two encoders give vectors of one dimension. *)
Definition dimensions_match
    (m : SWAGExampleModel Vocabulary RegularizerApplicator TextFieldTensors)
  : Prop :=
  embedder_output_dim (text_field_embedder m)
  = get_input_dim (startphrase_encoder m)
  /\ embedder_output_dim (text_field_embedder m)
     = get_input_dim (ending_encoder m)
  /\ get_output_dim (startphrase_encoder m)
     = get_output_dim (ending_encoder m).

(** The five encoded fields of a batch have the one shape [B x D]. *)
Definition one_shape
    (self : SWAGExampleModel Vocabulary RegularizerApplicator
                             TextFieldTensors)
    (B D : nat)
    (startphrase ending0 ending1 ending2 ending3 : TextFieldTensors) : Prop :=
  shape (encoded_startphrase get_text_field_mask self startphrase) = [B; D]
  /\ shape (encoded_ending get_text_field_mask self ending0) = [B; D]
  /\ shape (encoded_ending get_text_field_mask self ending1) = [B; D]
  /\ shape (encoded_ending get_text_field_mask self ending2) = [B; D]
  /\ shape (encoded_ending get_text_field_mask self ending3) = [B; D].

(** The counts of an accuracy make sense: no more correct than counted. *)
Definition consistent (a : Metrics.CategoricalAccuracy) : Prop :=
  (Metrics.correct_count a <= Metrics.total_count a)%nat.

End Model.

End ModelsAux.

(** ** The framework's configuration objects *)

Module Params.

(** A configuration value, as the configuration file gives it. *)
#[warnings="-register-all"]
Inductive config : Type :=
| CNone
| CBool (b : bool)
| CInt (z : Z)
| CStr (s : string)
| CList (items : list config)
| CDict (entries : list (string * config)).

(** A [Params] object: the dictionary it wraps.  Its methods change it
    in place, so that each takes the dictionary and returns it as it is
    afterwards. *)
Definition params : Type := dict string config.

Definition remove (key : string) (p : params) : params :=
  filter (fun kv => negb (String.eqb key (fst kv))) p.

(** [params.pop(key, default)]: the value of the key, which is removed,
    or the default. *)
Definition pop (key : string) (default : config) (p : params)
  : config * params :=
  (match dict_get String.eqb key p with
   | Some v => v
   | None => default
   end,
   remove key p).

(** [params.pop(key)]: a key without a default is required. *)
Definition pop_required (key : string) (p : params)
  : result config * params :=
  match dict_get String.eqb key p with
  | Some v => (Ok v, remove key p)
  | None => (Raise (ConfigurationError ("key " ++ key ++ " is required")), p)
  end.

(** [params.assert_empty(class_name)]. *)
Definition assert_empty (class_name : string) (p : params) : result unit :=
  match p with
  | [] => Ok tt
  | _ :: _ =>
      Raise (ConfigurationError ("Extra parameters passed to " ++ class_name))
  end.

(** The truth value of a configuration value. *)
Definition truthy (c : config) : bool :=
  match c with
  | CNone => false
  | CBool b => b
  | CInt z => negb (z =? 0)%Z
  | CStr s => negb (String.eqb s "")
  | CList items => negb (Nat.eqb (List.length items) 0)
  | CDict entries => negb (Nat.eqb (List.length entries) 0)
  end.

End Params.

(** ** [from_params] of [swagexample/readers.py] *)

Module ReadersParams.
Import Params.

Section Reader.

(** What the framework supplies: the token indexers and the two
    constructors from configuration. *)
Variables (Token TokenIndexer : Type).
Variable WordTokenizer : Readers.Tokenizer Token.
Variable SingleIdTokenIndexer : TokenIndexer.
Variable Tokenizer_from_params : config -> result (Readers.Tokenizer Token).
Variable TokenIndexer_dict_from_params :
  config -> result (dict string TokenIndexer).

(** The token indexers of a reader are a dictionary of named indexers. *)
Definition Reader : Type :=
  Readers.SWAGDatasetReader Token (dict string TokenIndexer).

(** [cls(lazy=..., tokenizer=..., token_indexers=...)]: in [__init__] an
    empty dictionary of indexers is false, like [None], and gives way to
    the default dictionary. *)
Definition construct (lazy : bool)
    (tokenizer : option (Readers.Tokenizer Token))
    (token_indexers : option (dict string TokenIndexer)) : Reader :=
  Readers.__init__ WordTokenizer [("tokens", SingleIdTokenIndexer)] lazy
    tokenizer
    match token_indexers with
    | Some ((_ :: _) as indexers) => Some indexers
    | _ => None
    end.

(** [from_params]: the reader or the exception raised, and the [Params]
    object afterwards. *)
Definition from_params (p : params) : result Reader * params :=
  let (lazy, p1) := pop "lazy" (CBool false) p in
  let (tokenizer_params, p2) := pop "tokenizer" (CDict []) p1 in
  match Tokenizer_from_params tokenizer_params with
  | Raise e => (Raise e, p2)
  | Ok tokenizer =>
      let (indexers_params, p3) := pop "token_indexers" (CDict []) p2 in
      match TokenIndexer_dict_from_params indexers_params with
      | Raise e => (Raise e, p3)
      | Ok token_indexers =>
          match assert_empty "SWAGDatasetReader" p3 with
          | Raise e => (Raise e, p3)
          | Ok _ =>
              (Ok (construct (truthy lazy) (Some tokenizer)
                             (Some token_indexers)),
               p3)
          end
      end
  end.

(** The keys [from_params] knows. *)
Definition known_key (k : string) : bool :=
  String.eqb k "lazy" || String.eqb k "tokenizer"
  || String.eqb k "token_indexers".

End Reader.

End ReadersParams.

(** ** [from_params] of [swagexample/models.py] *)

Module ModelsParams.
Import Params Torch Models.

Section Model.

Variables (Vocabulary RegularizerApplicator TextFieldTensors : Type).

(** The constructors from configuration that the framework supplies. *)
Variable TextFieldEmbedder_from_params :
  Vocabulary -> config -> result (TextFieldEmbedder TextFieldTensors).
Variable Seq2VecEncoder_from_params : config -> result Seq2VecEncoder.
Variable SimilarityFunction_from_params : config -> result SimilarityFunction.
Variable InitializerApplicator_from_params :
  config -> result (InitializerApplicator TextFieldTensors).
Variable RegularizerApplicator_from_params :
  config -> result (option RegularizerApplicator).

(** [from_params]: the model or the exception raised, and the [Params]
    object afterwards.  Nothing checks that the object is empty in the
    end. *)
Definition from_params (vocab : Vocabulary) (p : params)
  : result (SWAGExampleModel Vocabulary RegularizerApplicator
                             TextFieldTensors) * params :=
  match pop_required "text_field_embedder" p with
  | (Raise e, p1) => (Raise e, p1)
  | (Ok embedder_params, p1) =>
  match TextFieldEmbedder_from_params vocab embedder_params with
  | Raise e => (Raise e, p1)
  | Ok text_field_embedder =>
  match pop_required "startphrase_encoder" p1 with
  | (Raise e, p2) => (Raise e, p2)
  | (Ok startphrase_params, p2) =>
  match Seq2VecEncoder_from_params startphrase_params with
  | Raise e => (Raise e, p2)
  | Ok startphrase_encoder =>
  match pop_required "ending_encoder" p2 with
  | (Raise e, p3) => (Raise e, p3)
  | (Ok ending_params, p3) =>
  match Seq2VecEncoder_from_params ending_params with
  | Raise e => (Raise e, p3)
  | Ok ending_encoder =>
  match pop_required "similarity" p3 with
  | (Raise e, p4) => (Raise e, p4)
  | (Ok similarity_params, p4) =>
  match SimilarityFunction_from_params similarity_params with
  | Raise e => (Raise e, p4)
  | Ok similarity =>
  let (initializer_params, p5) := pop "initializer" (CList []) p4 in
  match InitializerApplicator_from_params initializer_params with
  | Raise e => (Raise e, p5)
  | Ok initializer =>
  let (regularizer_params, p6) := pop "regularizer" (CList []) p5 in
  match RegularizerApplicator_from_params regularizer_params with
  | Raise e => (Raise e, p6)
  | Ok regularizer =>
      (__init__ vocab text_field_embedder startphrase_encoder
                ending_encoder similarity initializer regularizer,
       p6)
  end end end end end end end end end end.

(** The keys [from_params] reads, and those among them it requires. *)
Definition required_keys : list string :=
  ["text_field_embedder"; "startphrase_encoder"; "ending_encoder";
   "similarity"].

Definition read_keys : list string :=
  (required_keys ++ ["initializer"; "regularizer"])%list.

End Model.

End ModelsParams.

(** ** Concrete configurations *)

Module MoreFixtures.
Import Params Torch Models Fixtures.

(** Constructors from configuration: a tokenizer that ignores its
    configuration, and token indexers named by the keys of theirs. *)
Definition tokenizer_of (c : config) : result (Readers.Tokenizer string) :=
  Ok split_at_spaces.

Definition indexers_of (c : config) : result (dict string unit) :=
  match c with
  | CDict entries => Ok (map (fun kv => (fst kv, tt)) entries)
  | _ => Raise (ConfigurationError "token_indexers must be a dictionary")
  end.

Definition reader_from_params (p : params) :=
  ReadersParams.from_params split_at_spaces tt tokenizer_of indexers_of p.

Definition embedder_of (vocab : unit) (c : config)
  : result (TextFieldEmbedder LongTensor) :=
  Ok index_embedder.

(** The encoder of the configuration ["wide"] declares two output
    dimensions, every other one. *)
Definition encoder_of (c : config) : result Seq2VecEncoder :=
  match c with
  | CStr "wide" => Ok wide_encoder
  | _ => Ok bag_of_embeddings
  end.

Definition similarity_of (c : config) : result SimilarityFunction :=
  Ok first_argument.

Definition initializer_of (c : config)
  : result (InitializerApplicator LongTensor) :=
  Ok keep_weights.

Definition regularizer_of (c : config) : result (option unit) := Ok None.

Definition model_from_params (p : params) :=
  ModelsParams.from_params embedder_of encoder_of similarity_of
                           initializer_of regularizer_of tt p.

Definition model_params : params :=
  [("text_field_embedder", CDict []);
   ("startphrase_encoder", CStr "bag_of_embeddings");
   ("ending_encoder", CStr "bag_of_embeddings");
   ("similarity", CStr "dot_product")].

(** A batch of two examples with their labels. *)
Definition labelled_two : batch LongTensor unit :=
  {| batch_startphrase := two 1 2 2 1;
     batch_ending0 := two 3 4 1 1;
     batch_ending1 := two 5 6 2 2;
     batch_ending2 := two 7 8 3 3;
     batch_ending3 := two 1 1 4 4;
     batch_label := Some (Tensor [2%nat] [0%Z; 3%Z]);
     batch_metadata := None |}.

End MoreFixtures.

(** * Properties *)

(** ** Dictionaries *)

Module DictFacts.

Lemma key_eqb_eq (a b : Csv.key) : Csv.key_eqb a b = true <-> a = b.
Proof.
  destruct a as [x|], b as [y|]; simpl; try (split; congruence).
  rewrite String.eqb_eq. split; congruence.
Qed.

Lemma key_eqb_refl (a : Csv.key) : Csv.key_eqb a a = true.
Proof. now apply key_eqb_eq. Qed.

Lemma key_eqb_neq (a b : Csv.key) : a <> b -> Csv.key_eqb a b = false.
Proof.
  intros Hab. destruct (Csv.key_eqb a b) eqn:E; [|reflexivity].
  now apply key_eqb_eq in E.
Qed.

Section RowDict.
Variable V : Type.
Implicit Types (d : dict Csv.key V) (k : Csv.key).

Lemma get_set_same k (v : V) d :
  dict_get Csv.key_eqb k (dict_set Csv.key_eqb k v d) = Some v.
Proof.
  induction d as [|[k' v'] d IH]; simpl.
  - now rewrite key_eqb_refl.
  - destruct (Csv.key_eqb k k') eqn:E; simpl; rewrite E; auto.
Qed.

Lemma get_set_other k k' (v : V) d :
  k <> k' ->
  dict_get Csv.key_eqb k (dict_set Csv.key_eqb k' v d)
  = dict_get Csv.key_eqb k d.
Proof.
  intros Hk. induction d as [|[k2 v2] d IH]; simpl.
  - now rewrite key_eqb_neq.
  - destruct (Csv.key_eqb k' k2) eqn:E; simpl.
    + apply key_eqb_eq in E. subst k2. now rewrite key_eqb_neq.
    + now rewrite IH.
Qed.

(** After a run of assignments, a key that was assigned holds one of
    the values assigned to it. *)
Lemma get_assigned k (pairs : list (Csv.key * V)) d :
  In k (map fst pairs) ->
  exists v, In (k, v) pairs
            /\ dict_get Csv.key_eqb k (dict_update Csv.key_eqb pairs d) = Some v.
Proof.
  unfold dict_update.
  induction pairs as [|[k' v'] pairs IH] using rev_ind; [contradiction|].
  rewrite map_app, in_app_iff, fold_left_app. simpl. intros Hin.
  destruct (Csv.key_eqb k k') eqn:E.
  - apply key_eqb_eq in E. subst k'. exists v'. split.
    + apply in_or_app. right. now left.
    + apply get_set_same.
  - assert (Hne : k <> k') by (intros ->; now rewrite key_eqb_refl in E).
    destruct Hin as [Hin|[Heq|[]]]; [|congruence].
    destruct (IH Hin) as (v & Hv & Hget). exists v. split.
    + apply in_or_app. now left.
    + now rewrite get_set_other.
Qed.

(** After a run of assignments a key holds what it held before, or one
    of the values assigned to it. *)
Lemma get_updated k (pairs : list (Csv.key * V)) d :
  dict_get Csv.key_eqb k (dict_update Csv.key_eqb pairs d)
  = dict_get Csv.key_eqb k d
  \/ exists v, In (k, v) pairs
               /\ dict_get Csv.key_eqb k (dict_update Csv.key_eqb pairs d)
                  = Some v.
Proof.
  unfold dict_update.
  induction pairs as [|[k' v'] pairs IH] using rev_ind; [now left|].
  rewrite fold_left_app. simpl.
  destruct (Csv.key_eqb k k') eqn:E.
  - apply key_eqb_eq in E. subst k'. right. exists v'. split.
    + apply in_or_app. right. now left.
    + apply get_set_same.
  - assert (Hne : k <> k') by (intros ->; now rewrite key_eqb_refl in E).
    rewrite get_set_other by assumption.
    destruct IH as [IH|(v & Hv & IH)]; [now left|].
    right. exists v. split; [|exact IH]. apply in_or_app. now left.
Qed.

(** A key that was not assigned holds what it held before. *)
Lemma get_not_assigned k (pairs : list (Csv.key * V)) d :
  ~ In k (map fst pairs) ->
  dict_get Csv.key_eqb k (dict_update Csv.key_eqb pairs d) = dict_get Csv.key_eqb k d.
Proof.
  unfold dict_update. revert d.
  induction pairs as [|[k' v'] pairs IH]; intros d Hk; simpl in *.
  - reflexivity.
  - rewrite IH by tauto. apply get_set_other.
    intros ->. apply Hk. now left.
Qed.
End RowDict.

End DictFacts.

(** ** The [csv] rows *)

Module CsvFacts.
Import DictFacts.

Lemma existsb_eqb_In (c : string) (l : list string) :
  existsb (String.eqb c) l = true <-> In c l.
Proof.
  rewrite existsb_exists. split.
  - intros (x & Hx & E). apply String.eqb_eq in E. now subst.
  - intros H. exists c. split; [assumption|apply String.eqb_refl].
Qed.

Lemma keys_of_combine (fieldnames r : Csv.row) :
  map fst (map (fun kv : string * string => (Some (fst kv), PyStr (snd kv)))
               (combine fieldnames r))
  = map Some (firstn (List.length r) fieldnames).
Proof.
  revert r. induction fieldnames as [|f fs IH]; intros [|x r]; simpl;
    try reflexivity.
  now rewrite IH.
Qed.

(** A column the row has a cell for maps to a string. *)
Lemma get_cell (fieldnames r : Csv.row) (c : string) :
  Csv.has_cell fieldnames r c = true ->
  exists s, Csv.get c (Csv.to_dict fieldnames r) = Some (PyStr s).
Proof.
  unfold Csv.has_cell. rewrite andb_true_iff, negb_true_iff. intros [Hin Hout].
  apply existsb_eqb_In in Hin.
  assert (Hout' : ~ In c (skipn (List.length r) fieldnames)).
  { intros H. apply existsb_eqb_In in H. congruence. }
  destruct (@get_assigned value (Some c)
              (map (fun kv : string * string =>
                      (Some (fst kv), PyStr (snd kv)))
                   (combine fieldnames r)) [])
    as (v & Hv & Hget).
  { rewrite keys_of_combine. now apply in_map. }
  apply in_map_iff in Hv. destruct Hv as ([k x] & Hkx & _).
  injection Hkx as _ <-. simpl in Hget.
  exists x. unfold Csv.get, Csv.to_dict, dict_of. cbv zeta.
  destruct (_ <? _)%nat.
  - rewrite get_set_other by discriminate. exact Hget.
  - destruct (_ <? _)%nat; [|exact Hget].
    rewrite get_not_assigned; [exact Hget|].
    rewrite map_map. simpl. rewrite in_map_iff.
    intros (k' & E & Hk'). injection E as ->. contradiction.
Qed.

(** A column that is not in the header is not a key of the row. *)
Lemma get_absent (fieldnames r : Csv.row) (c : string) :
  ~ In c fieldnames -> Csv.get c (Csv.to_dict fieldnames r) = None.
Proof.
  intros Hc. unfold Csv.get, Csv.to_dict, dict_of. cbv zeta.
  assert (Hd : dict_get Csv.key_eqb (Some c)
                 (dict_update Csv.key_eqb
                    (map (fun kv : string * string =>
                            (Some (fst kv), PyStr (snd kv)))
                         (combine fieldnames r)) []) = None).
  { rewrite get_not_assigned; [reflexivity|].
    rewrite keys_of_combine, in_map_iff.
    intros (k & E & Hk). injection E as ->.
    apply Hc. rewrite <- (firstn_skipn (List.length r) fieldnames).
    apply in_or_app. now left. }
  destruct (_ <? _)%nat.
  - now rewrite get_set_other by discriminate.
  - destruct (_ <? _)%nat; [|exact Hd].
    rewrite get_not_assigned; [exact Hd|].
    rewrite map_map. simpl. rewrite in_map_iff.
    intros (k' & E & Hk'). injection E as ->.
    apply Hc. rewrite <- (firstn_skipn (List.length r) fieldnames).
    apply in_or_app. now right.
Qed.

(** Under a column name a row holds a cell or [None], nothing else. *)
Lemma get_named_value (fieldnames r : Csv.row) (c : string) (v : value) :
  Csv.get c (Csv.to_dict fieldnames r) = Some v ->
  v = PyNone \/ exists s, v = PyStr s.
Proof.
  unfold Csv.get, Csv.to_dict, dict_of. cbv zeta.
  set (pairs := map (fun kv : string * string =>
                       (Some (fst kv), PyStr (snd kv)))
                    (combine fieldnames r)).
  assert (Hd : forall v',
             dict_get Csv.key_eqb (Some c)
               (dict_update Csv.key_eqb pairs []) = Some v' ->
             exists s, v' = PyStr s).
  { intros v' Hv'.
    destruct (@get_updated value (Some c) pairs []) as [H|(w & Hw & H)];
      rewrite H in Hv'; [discriminate|].
    injection Hv' as <-. unfold pairs in Hw. apply in_map_iff in Hw.
    destruct Hw as ([k x] & E & _). injection E as _ <-. eauto. }
  destruct (_ <? _)%nat.
  - rewrite get_set_other by discriminate. intros H. right. now apply Hd.
  - destruct (_ <? _)%nat; [|intros H; right; now apply Hd].
    destruct (@get_updated value (Some c)
                (map (fun k => (Some k, PyNone))
                     (skipn (List.length r) fieldnames))
                (dict_update Csv.key_eqb pairs [])) as [H|(w & Hw & H)];
      rewrite H; intros Hv.
    + right. now apply Hd.
    + injection Hv as <-. apply in_map_iff in Hw.
      destruct Hw as (k & E & _). injection E as _ <-. now left.
Qed.

End CsvFacts.

(** ** The dataset reader *)

Module ReadersSpec.
Import Readers CsvFacts.

Section Reader.
Variables (Token TokenIndexers : Type).
Variable self : SWAGDatasetReader Token TokenIndexers.

(** A row whose five text columns hold strings becomes the instance of
    those texts, with the value of [row.get('label')] as its label
    unless that value is [None]. *)
Lemma read_row_texts (d : Csv.row_dict) (sp e0 e1 e2 e3 : string) :
  Csv.get "startphrase" d = Some (PyStr sp) ->
  Csv.get "ending0" d = Some (PyStr e0) ->
  Csv.get "ending1" d = Some (PyStr e1) ->
  Csv.get "ending2" d = Some (PyStr e2) ->
  Csv.get "ending3" d = Some (PyStr e3) ->
  read_row self d
  = match get_or_none d "label" with
    | PyNone => Ok (text_fields self sp e0 e1 e2 e3)
    | l =>
        bind (@label_field Token TokenIndexers l)
             (fun l' => Ok (dict_set String.eqb "label" l'
                              (text_fields self sp e0 e1 e2 e3)))
    end.
Proof.
  intros Hsp H0 H1 H2 H3. unfold read_row, getitem.
  rewrite Hsp, H0, H1, H2, H3. simpl.
  destruct (get_or_none d "label"); reflexivity.
Qed.

(** What a successful [read_row] returns: the text fields of five lists
    of tokens, and the label field of the [str] that [row.get('label')]
    is, if it is not [None]. *)
Lemma read_row_inv (d : Csv.row_dict) (i : Instance Token TokenIndexers) :
  read_row self d = Ok i ->
  exists t t0 t1 t2 t3,
    (get_or_none d "label" = PyNone /\ i = token_fields self t t0 t1 t2 t3)
    \/ (exists s,
          get_or_none d "label" = PyStr s
          /\ i = dict_set String.eqb "label" (LabelField _ _ (PyStr s))
                          (token_fields self t t0 t1 t2 t3)).
Proof.
  unfold read_row, getitem.
  destruct (Csv.get "startphrase" d) as [vs|]; [|discriminate].
  destruct (Csv.get "ending0" d) as [v0|]; [|discriminate].
  destruct (Csv.get "ending1" d) as [v1|]; [|discriminate].
  destruct (Csv.get "ending2" d) as [v2|]; [|discriminate].
  destruct (Csv.get "ending3" d) as [v3|]; [|discriminate].
  unfold text_to_instance, text_field. cbn [bind].
  destruct (tokenize self vs) as [t|]; [cbn [bind]|discriminate].
  destruct (tokenize self v0) as [t0|]; [cbn [bind]|discriminate].
  destruct (tokenize self v1) as [t1|]; [cbn [bind]|discriminate].
  destruct (tokenize self v2) as [t2|]; [cbn [bind]|discriminate].
  destruct (tokenize self v3) as [t3|]; [cbn [bind]|discriminate].
  exists t, t0, t1, t2, t3.
  destruct (get_or_none d "label") as [|s| |]; cbn in H; try discriminate.
  - left. split; [reflexivity|]. now injection H as <-.
  - right. exists s. split; [reflexivity|]. now injection H as <-.
Qed.

Lemma read_row_has_cells (fieldnames r : Csv.row) :
  (forall c, In c text_columns -> Csv.has_cell fieldnames r c = true) ->
  exists i, read_row self (Csv.to_dict fieldnames r) = Ok i.
Proof.
  intros H.
  destruct (get_cell fieldnames r "startphrase") as [sp Hsp];
    [apply H; simpl; tauto|].
  destruct (get_cell fieldnames r "ending0") as [e0 H0];
    [apply H; simpl; tauto|].
  destruct (get_cell fieldnames r "ending1") as [e1 H1];
    [apply H; simpl; tauto|].
  destruct (get_cell fieldnames r "ending2") as [e2 H2];
    [apply H; simpl; tauto|].
  destruct (get_cell fieldnames r "ending3") as [e3 H3];
    [apply H; simpl; tauto|].
  rewrite (read_row_texts _ Hsp H0 H1 H2 H3). unfold get_or_none.
  destruct (Csv.get "label" (Csv.to_dict fieldnames r)) as [v|] eqn:E;
    [destruct (get_named_value _ _ _ E) as [->|[s ->]]|];
    eexists; reflexivity.
Qed.

Lemma read_rows_all (A : Type) (f : A -> Csv.row_dict) (xs : list A) :
  (forall x, In x xs -> exists i, read_row self (f x) = Ok i) ->
  exists insts,
    read_rows self (map f xs) = (insts, None)
    /\ Forall2 (fun x i => read_row self (f x) = Ok i) xs insts.
Proof.
  induction xs as [|x xs IH]; simpl; intros H.
  - exists []. split; constructor.
  - destruct (H x (or_introl eq_refl)) as [i Hi].
    destruct IH as (insts & Hr & Hall); [intros; apply H; now right|].
    exists (i :: insts). rewrite Hi, Hr. split; [reflexivity|].
    now constructor.
Qed.

(** C2 (as amended): when every data row has a cell for each of the
    five text columns, [_read] runs to the end of the file without
    raising and yields one instance per data row, the instance of
    that row, in the order of the rows. *)
Theorem read_yields_every_row (fieldnames : Csv.row) (rows : list Csv.row) :
  (forall r c, In r rows -> In c text_columns ->
               Csv.has_cell fieldnames r c = true) ->
  exists insts,
    _read self (fieldnames :: rows) = (insts, None)
    /\ List.length insts = List.length rows
    /\ Forall2 (fun r i => read_row self (Csv.to_dict fieldnames r) = Ok i)
               rows insts.
Proof.
  intros Hcells. unfold _read. simpl.
  assert (Hkeep : filter (fun r => negb (Csv.is_blank r)) rows = rows).
  { apply forallb_filter_id. apply forallb_forall. intros r Hr.
    specialize (Hcells r "startphrase" Hr (or_introl eq_refl)).
    destruct r; [discriminate Hcells|reflexivity]. }
  rewrite Hkeep.
  destruct (read_rows_all (Csv.to_dict fieldnames) rows)
    as (insts & Hread & Hall).
  { intros r Hr. apply read_row_has_cells. intros c Hc. now apply Hcells. }
  exists insts. split; [exact Hread|]. split; [|exact Hall].
  symmetry. exact (Forall2_length Hall).
Qed.

(** C3 (as amended): the instance of a row has no label field when the
    header has no [label] column, or when the row stops before its
    [label] cell; when the row has a [label] cell, the instance has a
    label field and it holds the text of the cell, whatever it is:
    the string "2" for a cell that reads 2, the empty string for an
    empty cell. *)
Theorem label_field_of_row (fieldnames r : Csv.row)
    (i : Instance Token TokenIndexers) :
  read_row self (Csv.to_dict fieldnames r) = Ok i ->
  (~ In "label" fieldnames -> field "label" i = None)
  /\ (Csv.get "label" (Csv.to_dict fieldnames r) = Some PyNone ->
      field "label" i = None)
  /\ (forall s,
        Csv.get "label" (Csv.to_dict fieldnames r) = Some (PyStr s) ->
        field "label" i = Some (LabelField _ _ (PyStr s))).
Proof.
  intros Hi. apply read_row_inv in Hi.
  destruct Hi as (t & t0 & t1 & t2 & t3 & [[Hl ->]|(s & Hl & ->)]);
    unfold get_or_none in Hl; repeat split.
  - intros s Hs. rewrite Hs in Hl. discriminate.
  - intros Habs. rewrite (get_absent fieldnames r "label" Habs) in Hl.
    discriminate.
  - intros H. rewrite H in Hl. discriminate.
  - intros s' Hs. rewrite Hs in Hl. now injection Hl as <-.
Qed.

(** C9: a row whose [label] cell holds the string [s] becomes an
    instance whose label field holds [s] itself, for every string [s]:
    the reader neither converts the cell to an integer nor rejects any
    value of it. *)
Theorem label_passed_verbatim (d : Csv.row_dict)
    (sp e0 e1 e2 e3 s : string) :
  Csv.get "startphrase" d = Some (PyStr sp) ->
  Csv.get "ending0" d = Some (PyStr e0) ->
  Csv.get "ending1" d = Some (PyStr e1) ->
  Csv.get "ending2" d = Some (PyStr e2) ->
  Csv.get "ending3" d = Some (PyStr e3) ->
  Csv.get "label" d = Some (PyStr s) ->
  read_row self d
  = Ok (text_fields self sp e0 e1 e2 e3
          ++ [("label", LabelField _ _ (PyStr s))])%list.
Proof.
  intros Hsp H0 H1 H2 H3 Hl.
  rewrite (read_row_texts d Hsp H0 H1 H2 H3).
  unfold get_or_none. now rewrite Hl.
Qed.

End Reader.
End ReadersSpec.

Module ReadersExamples.
Import Readers Fixtures.

(** The row of the specification's scenario, read with its header. *)
Example read_sitting_man :
  _read reader [labelled_header; sitting_man "0"]
  = ([(text_fields reader "A man is sitting." "He stands up."
         "He flies away." "He eats soup." "He sleeps."
         ++ [("label", LabelField _ _ (PyStr "0"))])%list], None).
Proof. reflexivity. Qed.

Example tokens_of_startphrase :
  whitespace_tokenizer "A man is sitting." = ["A"; "man"; "is"; "sitting."].
Proof. reflexivity. Qed.

(** Blank lines between the rows are passed over. *)
Example read_skips_blank_rows :
  _read reader [labelled_header; []; sitting_man "0"; []]
  = _read reader [labelled_header; sitting_man "0"].
Proof. reflexivity. Qed.

Lemma read_yields_every_row_witness :
  exists insts,
    _read reader [labelled_header; sitting_man "0"; sitting_man "2"]
    = (insts, None)
    /\ List.length insts = 2%nat
    /\ Forall2 (fun r i =>
                  read_row reader (Csv.to_dict labelled_header r) = Ok i)
               [sitting_man "0"; sitting_man "2"] insts.
Proof.
  apply (ReadersSpec.read_yields_every_row reader labelled_header
           [sitting_man "0"; sitting_man "2"]).
  intros r c [<-|[<-|[]]] Hc; simpl in Hc;
    repeat (destruct Hc as [<-|Hc]; [reflexivity|]); destruct Hc.
Defined.

(** C2 as stated fails: the header has the five text columns and the
    file has one data row, but the row stops after two cells, so that
    the missing cells are [None], the tokenizer is handed [None], which
    the tokenizer that splits at spaces cannot split, and [_read] raises
    before it yields anything. *)
Lemma short_row_stops_reading :
  (forall c, In c text_columns -> In c text_header)
  /\ List.length [short_row] = 1%nat
  /\ _read reader [text_header; short_row] = ([], Some AttributeError).
Proof.
  split; [|split; reflexivity].
  intros c Hc. exact Hc.
Qed.

Lemma label_field_of_row_witness :
  exists i,
    read_row reader (Csv.to_dict labelled_header (sitting_man "2")) = Ok i
    /\ field "label" i = Some (LabelField _ _ (PyStr "2")).
Proof.
  eexists. split; [reflexivity|].
  refine (proj2 (proj2 (ReadersSpec.label_field_of_row reader
                          labelled_header (sitting_man "2") _)) "2" _);
    reflexivity.
Defined.

(** C3 as stated fails: a row whose [label] cell is empty yields an
    instance that has a label field, holding the empty string. *)
Lemma empty_label_cell_is_a_label :
  exists i,
    _read reader [labelled_header; sitting_man ""] = ([i], None)
    /\ nth_error (sitting_man "") 5 = Some ""
    /\ field "label" i = Some (LabelField _ _ (PyStr ""))
    /\ field "label" i <> None.
Proof.
  eexists. split; [reflexivity|]. split; [reflexivity|].
  split; [reflexivity|discriminate].
Qed.

Lemma label_passed_verbatim_witness :
  read_row reader (Csv.to_dict labelled_header (sitting_man "seven"))
  = Ok (text_fields reader "A man is sitting." "He stands up."
          "He flies away." "He eats soup." "He sleeps."
          ++ [("label", LabelField _ _ (PyStr "seven"))])%list.
Proof.
  apply (ReadersSpec.label_passed_verbatim reader
           (Csv.to_dict labelled_header (sitting_man "seven")));
    reflexivity.
Defined.

End ReadersExamples.

(** ** The tensor operations *)

Module TorchFacts.
Import Torch.
Local Open Scope nat_scope.

Section Lists.
Variables (A B : Type).

(** Element [q * n + r] of the concatenation of blocks of [n]
    elements is element [r] of block [q]. *)
Lemma nth_flat_map (f : A -> list B) (n : nat) (l : list A) (a : A)
    (d : B) (q r : nat) :
  (forall x, In x l -> List.length (f x) = n) ->
  q < List.length l -> r < n ->
  nth (q * n + r) (flat_map f l) d = nth r (f (nth q l a)) d.
Proof.
  revert q. induction l as [|x l IH]; intros q Hlen Hq Hr; simpl in *.
  - lia.
  - assert (Hx : List.length (f x) = n) by auto.
    destruct q as [|q]; simpl.
    + rewrite app_nth1 by lia. reflexivity.
    + rewrite app_nth2 by lia.
      replace (n + q * n + r - List.length (f x)) with (q * n + r) by lia.
      apply IH; auto. lia.
Qed.

Lemma length_flat_map_blocks (f : A -> list B) (n : nat) (l : list A) :
  (forall x, In x l -> List.length (f x) = n) ->
  List.length (flat_map f l) = List.length l * n.
Proof.
  induction l as [|x l IH]; intros H; simpl; [reflexivity|].
  rewrite length_app.
  rewrite H by now left.
  rewrite IH by (intros; apply H; now right).
  reflexivity.
Qed.

Lemma length_row (d : nat) (xs : list A) (r : nat) :
  (r + 1) * d <= List.length xs -> List.length (row d xs r) = d.
Proof.
  intros H. unfold row. rewrite length_firstn, length_skipn. lia.
Qed.

Lemma nth_row (d : nat) (xs : list A) (r k : nat) (x0 : A) :
  k < d -> nth k (row d xs r) x0 = nth (r * d + k) xs x0.
Proof.
  intros H. unfold row. rewrite nth_firstn, nth_skipn.
  apply Nat.ltb_lt in H. now rewrite H.
Qed.

End Lists.

Local Open Scope R_scope.

(** The dot product of two vectors of [n] elements, element by
    element. *)
Lemma dot_nth (n : nat) (u v : list R) :
  List.length u = n -> List.length v = n ->
  dot u v = sum (map (fun k => nth k u 0 * nth k v 0) (seq 0 n)).
Proof.
  revert u v. induction n as [|n IH]; intros [|x u] [|y v] Hu Hv;
    try discriminate; [reflexivity|].
  unfold dot in *. simpl. f_equal.
  rewrite <- seq_shift, map_map. apply IH; simpl in *; lia.
Qed.

Lemma flat_map_ext_seq (A : Type) (f g : nat -> list A) (n : nat) :
  (forall b, (b < n)%nat -> f b = g b) ->
  flat_map f (seq 0 n) = flat_map g (seq 0 n).
Proof.
  intros H. rewrite !flat_map_concat_map. f_equal.
  apply map_ext_in. intros b Hb. apply in_seq in Hb. apply H. lia.
Qed.

(** The shape that [squeeze] leaves of [B x 4 x 1]. *)
Lemma squeeze_scores (B : nat) (xs : list R) :
  squeeze (Tensor [B; 4%nat; 1%nat] xs)
  = Tensor (if (B =? 1)%nat then [4%nat] else [B; 4%nat]) xs.
Proof.
  unfold squeeze. simpl. now destruct (B =? 1)%nat.
Qed.

(** Stacking four [B x D] tensors and multiplying by a [B x D] tensor
    with a last dimension of one added. *)
Section StackBmm.
Variables (B D : nat) (s e0 e1 e2 e3 : FloatTensor).
Hypothesis Hs : shape s = [B; D].
Hypothesis H0 : shape e0 = [B; D].
Hypothesis H1 : shape e1 = [B; D].
Hypothesis H2 : shape e2 = [B; D].
Hypothesis H3 : shape e3 = [B; D].
Hypothesis Ls : List.length (data s) = (B * D)%nat.
Hypothesis L0 : List.length (data e0) = (B * D)%nat.
Hypothesis L1 : List.length (data e1) = (B * D)%nat.
Hypothesis L2 : List.length (data e2) = (B * D)%nat.
Hypothesis L3 : List.length (data e3) = (B * D)%nat.

Let block (r : nat) : list R :=
  (row D (data e0) r ++ row D (data e1) r
   ++ row D (data e2) r ++ row D (data e3) r)%list.

Lemma stack_four :
  stack_m2 [e0; e1; e2; e3]
  = Ok (Tensor [B; 4%nat; D] (flat_map block (seq 0 B))).
Proof.
  unfold stack_m2. simpl.
  rewrite H0, H1, H2, H3. simpl. rewrite !Nat.eqb_refl.
  simpl. rewrite Nat.mul_1_r.
  do 2 f_equal. apply flat_map_ext. intros r. unfold block.
  now rewrite app_nil_r.
Qed.

Lemma length_rows_at (e : FloatTensor) (b : nat) :
  List.length (data e) = (B * D)%nat -> (b < B)%nat ->
  List.length (row D (data e) b) = D.
Proof. intros L Hb. apply length_row. nia. Qed.

Lemma length_block (b : nat) :
  (b < B)%nat -> List.length (block b) = (4 * D)%nat.
Proof.
  intros Hb. unfold block. rewrite !length_app, !length_rows_at by auto.
  lia.
Qed.

(** Element [k] of row [i] of example [b] of the stack is element [k]
    of row [b] of the [i]-th tensor. *)
Lemma nth_stacked (b i k : nat) :
  (b < B)%nat -> (i < 4)%nat -> (k < D)%nat ->
  nth ((b * 4 + i) * D + k) (flat_map block (seq 0 B)) 0
  = nth k (row D (data (nth i [e0; e1; e2; e3] e0)) b) 0.
Proof.
  intros Hb Hi Hk.
  replace ((b * 4 + i) * D + k)%nat with (b * (4 * D) + (i * D + k))%nat
    by lia.
  rewrite nth_flat_map with (n := (4 * D)%nat) (a := 0%nat).
  - rewrite seq_nth by assumption. simpl. unfold block.
    assert (E0 := length_rows_at e0 L0 Hb).
    assert (E1 := length_rows_at e1 L1 Hb).
    assert (E2 := length_rows_at e2 L2 Hb).
    assert (E3 := length_rows_at e3 L3 Hb).
    destruct i as [|[|[|[|i]]]]; [| | | |lia].
    + rewrite app_nth1 by lia. f_equal. 
    + rewrite app_nth2 by lia. rewrite app_nth1 by lia. f_equal. lia.
    + rewrite app_nth2 by lia. rewrite app_nth2 by lia.
      rewrite app_nth1 by lia. f_equal. lia.
    + rewrite app_nth2 by lia. rewrite app_nth2 by lia.
      rewrite app_nth2 by lia. f_equal. lia.
  - intros x Hx. apply in_seq in Hx. apply length_block. lia.
  - now rewrite length_seq.
  - nia.
Qed.

Lemma bmm_row (e : FloatTensor) (b i : nat) :
  (b < B)%nat -> (i < 4)%nat -> e = nth i [e0; e1; e2; e3] e0 ->
  List.length (data e) = (B * D)%nat ->
  sum (map (fun k =>
              nth ((b * 4 + i) * D + k) (flat_map block (seq 0 B)) 0
              * nth ((b * D + k) * 1 + 0) (data s) 0)
           (seq 0 D))
  = dot (row D (data e) b) (row D (data s) b).
Proof.
  intros Hb Hi -> Le.
  rewrite (@dot_nth D) by (apply length_rows_at; assumption).
  f_equal. apply map_ext_in. intros k Hk. apply in_seq in Hk.
  rewrite nth_stacked by lia.
  rewrite (@nth_row R D (data s)) by lia.
  f_equal. f_equal. lia.
Qed.

Lemma stack_bmm_squeeze :
  bind (stack_m2 [e0; e1; e2; e3]) (fun stacked =>
    bind (bmm stacked (unsqueeze_m1 s)) (fun product =>
      Ok (squeeze product)))
  = Ok (Tensor (if (B =? 1)%nat then [4%nat] else [B; 4%nat])
               (dot_products B D s e0 e1 e2 e3)).
Proof.
  rewrite stack_four. simpl. unfold bmm, unsqueeze_m1. simpl.
  rewrite Hs. simpl. rewrite !Nat.eqb_refl. simpl.
  rewrite squeeze_scores. do 2 f_equal. unfold dot_products.
  apply flat_map_ext_seq. intros b Hb.
  rewrite (@bmm_row e0 b 0), (@bmm_row e1 b 1),
    (@bmm_row e2 b 2), (@bmm_row e3 b 3); auto.
Qed.
End StackBmm.

(** *** Softmax and cross entropy *)

Lemma sum_exp_nonneg (v : list R) : 0 <= sum (map exp v).
Proof.
  induction v as [|x v IH]; simpl; [lra|].
  pose proof (exp_pos x). lra.
Qed.

Lemma sum_exp_pos (v : list R) : v <> [] -> 0 < sum (map exp v).
Proof.
  destruct v as [|x v]; [congruence|]. intros _. simpl.
  pose proof (exp_pos x). pose proof (sum_exp_nonneg v). lra.
Qed.

Lemma exp_le_sum (v : list R) (x : R) : In x v -> exp x <= sum (map exp v).
Proof.
  induction v as [|y v IH]; simpl; [contradiction|].
  intros [->|Hin].
  - pose proof (sum_exp_nonneg v). lra.
  - pose proof (exp_pos y). specialize (IH Hin). lra.
Qed.

Lemma sum_map_div (A : Type) (f : A -> R) (z : R) (v : list A) :
  sum (map (fun x => f x / z) v) = sum (map f v) / z.
Proof.
  induction v as [|x v IH]; simpl.
  - unfold Rdiv. ring.
  - rewrite IH. unfold Rdiv. ring.
Qed.

Lemma length_softmax_vec (v : list R) :
  List.length (softmax_vec v) = List.length v.
Proof. unfold softmax_vec. apply length_map. Qed.

(** The softmax of a vector that is not empty sums to one. *)
Lemma sum_softmax_vec (v : list R) : v <> [] -> sum (softmax_vec v) = 1.
Proof.
  intros Hv. unfold softmax_vec. cbv zeta.
  rewrite (sum_map_div exp). pose proof (sum_exp_pos Hv).
  field. lra.
Qed.

(** Each probability of a softmax is positive and at most one. *)
Lemma softmax_vec_nth (v : list R) (t : nat) :
  (t < List.length v)%nat ->
  0 < nth t (softmax_vec v) 0 <= 1.
Proof.
  intros Ht. unfold softmax_vec. cbv zeta.
  set (z := sum (map exp v)).
  assert (Hz : 0 < z) by (apply sum_exp_pos; destruct v; simpl in *; [lia|congruence]).
  assert (Hin : In (nth t (map (fun x => exp x / z) v) 0)
                   (map (fun x => exp x / z) v))
    by (apply nth_In; now rewrite length_map).
  apply in_map_iff in Hin. destruct Hin as (x & <- & Hx).
  pose proof (exp_pos x). pose proof (exp_le_sum v x Hx). fold z in H0.
  split.
  - now apply Rdiv_lt_0_compat.
  - apply Rmult_le_reg_r with (r := z); [assumption|].
    unfold Rdiv. rewrite Rmult_assoc, Rinv_l by lra. lra.
Qed.

Lemma nth_map_in (A C : Type) (f : A -> C) (l : list A) (t : nat)
    (d : A) (d' : C) :
  (t < List.length l)%nat -> nth t (map f l) d' = f (nth t l d).
Proof.
  intros Ht. rewrite (nth_indep _ d' (f d)) by now rewrite length_map.
  apply map_nth.
Qed.

(** Over the reals the entries of [log_softmax] are the logarithms of
    the entries of [softmax]. *)
Lemma log_softmax_vec_nth (v : list R) (t : nat) :
  (t < List.length v)%nat ->
  nth t (log_softmax_vec v) 0 = ln (nth t (softmax_vec v) 0).
Proof.
  intros Ht. unfold log_softmax_vec, softmax_vec. cbv zeta.
  set (z := sum (map exp v)).
  assert (Hz : 0 < z)
    by (apply sum_exp_pos; destruct v; simpl in *; [lia|congruence]).
  rewrite !(nth_map_in _ v 0 0 Ht).
  unfold Rdiv. rewrite ln_mult.
  - rewrite ln_Rinv by exact Hz. rewrite ln_exp. ring.
  - apply exp_pos.
  - apply Rinv_0_lt_compat, Hz.
Qed.

Lemma nll_softmax (scores : list R) (target : Z) :
  (0 <= target < Z.of_nat (List.length scores))%Z ->
  nll scores target
  = - ln (nth (Z.to_nat target) (softmax_vec scores) 0).
Proof.
  intros Ht. unfold nll. now rewrite log_softmax_vec_nth by lia.
Qed.

(** The loss of an example is not negative when its target is one of
    its classes. *)
Lemma nll_nonneg (scores : list R) (target : Z) :
  (0 <= target < Z.of_nat (List.length scores))%Z ->
  0 <= nll scores target.
Proof.
  intros Ht. rewrite nll_softmax by exact Ht.
  destruct (softmax_vec_nth scores (t := Z.to_nat target)) as [Hpos Hle];
    [lia|].
  set (p := nth (Z.to_nat target) (softmax_vec scores) 0) in *.
  destruct Hle as [Hlt|Heq].
  - pose proof (ln_increasing p 1 Hpos Hlt). rewrite ln_1 in H. lra.
  - rewrite Heq, ln_1. lra.
Qed.

Lemma sum_nonneg (xs : list R) : Forall (fun x => 0 <= x) xs -> 0 <= sum xs.
Proof. induction 1; simpl; lra. Qed.

Lemma length_rows (A : Type) (d n : nat) (xs : list A) :
  List.length (rows d n xs) = n.
Proof. unfold rows. now rewrite length_map, length_seq. Qed.

Lemma rows_lengths (A : Type) (d n : nat) (xs : list A) :
  List.length xs = (n * d)%nat ->
  Forall (fun r => List.length r = d) (rows d n xs).
Proof.
  intros H. unfold rows. apply Forall_map, Forall_forall.
  intros r Hr. apply in_seq in Hr. apply length_row. nia.
Qed.

(** The cross entropy of [n >= 1] rows of [c] scores with targets among
    the [c] classes: the mean of the losses of the rows, which is not
    negative. *)
Lemma cross_entropy_batch (n c : nat) (input : FloatTensor)
    (target : LongTensor) :
  shape input = [n; c] -> shape target = [n] ->
  List.length (data input) = (n * c)%nat ->
  List.length (data target) = n ->
  (0 < n)%nat ->
  Forall (fun t => (0 <= t < Z.of_nat c)%Z) (data target) ->
  exists loss,
    CrossEntropyLoss input target = Ok (Num loss)
    /\ loss = sum (map (fun st => nll (fst st) (snd st))
                       (combine (rows c n (data input)) (data target)))
              / INR n
    /\ 0 <= loss.
Proof.
  intros Hi Ht Li Lt Hn Hvalid. unfold CrossEntropyLoss.
  rewrite Hi, Ht, Nat.eqb_refl.
  assert (Hall : forallb (fun t => (t =? ignore_index)%Z
                          || ((0 <=? t)%Z && (t <? Z.of_nat c)%Z))
                   (data target) = true).
  { apply forallb_forall. intros t Hin.
    rewrite Forall_forall in Hvalid. specialize (Hvalid t Hin).
    apply orb_true_iff. right. apply andb_true_iff.
    split; [apply Z.leb_le|apply Z.ltb_lt]; lia. }
  rewrite Hall.
  set (pairs := combine (rows c n (data input)) (data target)).
  assert (Hkeep : filter (fun st : list R * Z =>
                            negb (snd st =? ignore_index)%Z) pairs = pairs).
  { apply forallb_filter_id, forallb_forall. intros [r t] Hin.
    apply in_combine_r in Hin. rewrite Forall_forall in Hvalid.
    specialize (Hvalid t Hin). simpl. apply negb_true_iff, Z.eqb_neq.
    unfold ignore_index. lia. }
  rewrite Hkeep.
  assert (Hlen : List.length pairs = n).
  { unfold pairs. rewrite length_combine, length_rows. lia. }
  assert (Hnn : 0 <= sum (map (fun st => nll (fst st) (snd st)) pairs)).
  { apply sum_nonneg, Forall_map, Forall_forall. intros [r t] Hin.
    simpl. apply nll_nonneg.
    pose proof (in_combine_l _ _ _ _ Hin) as Hr.
    pose proof (in_combine_r _ _ _ _ Hin) as Htg.
    pose proof (rows_lengths c n (data input) Li) as Hrows.
    rewrite Forall_forall in Hrows, Hvalid.
    rewrite (Hrows r Hr). apply Hvalid, Htg. }
  destruct pairs as [|p pairs'] eqn:E; [simpl in Hlen; lia|].
  rewrite Hlen. eexists. split; [reflexivity|]. split; [reflexivity|].
  apply Rmult_le_pos; [exact Hnn|].
  apply Rlt_le, Rinv_0_lt_compat, lt_0_INR. exact Hn.
Qed.

(** Row [q] of the concatenation of blocks of [n] elements is block
    [q]. *)
Lemma row_flat_map (A C : Type) (f : A -> list C) (n : nat) (l : list A)
    (a : A) (q : nat) :
  (forall x, In x l -> List.length (f x) = n) ->
  (q < List.length l)%nat ->
  row n (flat_map f l) q = f (nth q l a).
Proof.
  revert q. induction l as [|x l IH]; intros q Hlen Hq; simpl in *; [lia|].
  assert (Hx : List.length (f x) = n) by auto.
  destruct q as [|q]; unfold row; simpl.
  - rewrite firstn_app, Hx, Nat.sub_diag, <- Hx, firstn_all. simpl.
    apply app_nil_r.
  - rewrite skipn_app, Hx.
    rewrite skipn_all2 by lia.
    replace (n + q * n - n)%nat with (q * n)%nat by lia.
    simpl. apply IH; auto. lia.
Qed.

Lemma row_dot_products (B D : nat) (s e0 e1 e2 e3 : FloatTensor) (b : nat) :
  (b < B)%nat ->
  row 4 (dot_products B D s e0 e1 e2 e3) b
  = [dot (row D (data e0) b) (row D (data s) b);
     dot (row D (data e1) b) (row D (data s) b);
     dot (row D (data e2) b) (row D (data s) b);
     dot (row D (data e3) b) (row D (data s) b)].
Proof.
  intros Hb. unfold dot_products.
  rewrite row_flat_map with (n := 4%nat) (a := 0%nat).
  - now rewrite seq_nth.
  - reflexivity.
  - now rewrite length_seq.
Qed.

Lemma length_dot_products (B D : nat) (s e0 e1 e2 e3 : FloatTensor) :
  List.length (dot_products B D s e0 e1 e2 e3) = (B * 4)%nat.
Proof.
  unfold dot_products.
  rewrite length_flat_map_blocks with (n := 4%nat); [|reflexivity].
  now rewrite length_seq.
Qed.

(** The softmax of [B] rows of four scores, whichever of the two shapes
    they have. *)
Lemma softmax_scores (B : nat) (xs : list R) :
  softmax_m1 (Tensor (if (B =? 1)%nat then [4%nat] else [B; 4%nat]) xs)
  = Tensor (if (B =? 1)%nat then [4%nat] else [B; 4%nat])
           (flat_map softmax_vec (rows 4 B xs)).
Proof.
  unfold softmax_m1. destruct (B =? 1)%nat eqn:E; simpl.
  - apply Nat.eqb_eq in E. now subst.
  - now rewrite Nat.mul_1_r.
Qed.

Lemma row_softmax_rows (B : nat) (xs : list R) (b : nat) :
  List.length xs = (B * 4)%nat -> (b < B)%nat ->
  row 4 (flat_map softmax_vec (rows 4 B xs)) b = softmax_vec (row 4 xs b).
Proof.
  intros L Hb.
  rewrite row_flat_map with (n := 4%nat) (a := []).
  - unfold rows. rewrite nth_indep with (d' := row 4 xs 0%nat)
      by (now rewrite length_map, length_seq).
    rewrite map_nth with (f := row 4 xs). now rewrite seq_nth.
  - intros r Hr. rewrite length_softmax_vec.
    pose proof (rows_lengths 4 B xs L) as H.
    rewrite Forall_forall in H. auto.
  - now rewrite length_rows.
Qed.

(** The probabilities of each example sum to one. *)
Lemma probabilities_sum_to_one (B D : nat) (s e0 e1 e2 e3 : FloatTensor)
    (b : nat) :
  (b < B)%nat ->
  sum (row 4 (flat_map softmax_vec
                (rows 4 B (dot_products B D s e0 e1 e2 e3))) b) = 1.
Proof.
  intros Hb.
  rewrite row_softmax_rows by (apply length_dot_products || assumption).
  apply sum_softmax_vec.
  rewrite row_dot_products by assumption. discriminate.
Qed.

End TorchFacts.

(** ** The scoring model *)

Module ModelsSpec.
Import Torch Models TorchFacts.

(** The accuracy counts every example of a batch of [B <> 1] examples
    with gold labels below four. *)
Lemma accuracy_counts_batch (a : Metrics.CategoricalAccuracy) (B : nat)
    (scores : list R) (gold : LongTensor) :
  (B =? 1)%nat = false -> shape gold = [B] ->
  Forall (fun t => (t < 4)%Z) (data gold) ->
  exists a',
    Metrics.call a (Tensor (logits_shape B) scores) gold = Ok a'
    /\ Metrics.total_count a' = (Metrics.total_count a + B)%nat
    /\ (Metrics.correct_count a <= Metrics.correct_count a')%nat.
Proof.
  intros HB Hshape Hvalid.
  unfold Metrics.call, dim, logits_shape. simpl.
  rewrite HB, Hshape. simpl.
  assert (Hsmall : existsb (fun t => (4 <=? t)%Z) (data gold) = false).
  { apply not_true_is_false. intros Hex.
    apply existsb_exists in Hex. destruct Hex as (t & Hin & Ht).
    rewrite Forall_forall in Hvalid. specialize (Hvalid t Hin).
    apply Z.leb_le in Ht. lia. }
  rewrite Hsmall, Nat.eqb_refl. simpl.
  eexists. split; [reflexivity|]. simpl. split; lia.
Qed.

Section Model.
Variables (Vocabulary RegularizerApplicator TextFieldTensors Metadata : Type).
Variable mask : TextFieldTensors -> LongTensor.
Variable self : SWAGExampleModel Vocabulary RegularizerApplicator
                                 TextFieldTensors.

Section Batch.
Variables (B D : nat).
Variables (startphrase ending0 ending1 ending2 ending3 : TextFieldTensors).
Hypothesis Hbatch :
  encodes_batch mask self B D startphrase ending0 ending1 ending2 ending3.

Let scores : list R :=
  dot_products B D (encoded_startphrase mask self startphrase)
    (encoded_ending mask self ending0) (encoded_ending mask self ending1)
    (encoded_ending mask self ending2) (encoded_ending mask self ending3).

Lemma forward_logits_eq :
  forward_logits mask self startphrase ending0 ending1 ending2 ending3
  = Ok (Tensor (logits_shape B) scores).
Proof.
  destruct Hbatch as ([Hs Ls] & [H0 L0] & [H1 L1] & [H2 L2] & [H3 L3]).
  unfold forward_logits. cbv zeta.
  fold (encoded_startphrase mask self startphrase).
  fold (encoded_ending mask self ending0).
  fold (encoded_ending mask self ending1).
  fold (encoded_ending mask self ending2).
  fold (encoded_ending mask self ending3).
  now apply stack_bmm_squeeze.
Qed.

(** Without labels, [forward] returns the scores, their softmax and
    no loss, and leaves the model as it was. *)
Lemma forward_unlabelled (metadata : option Metadata) :
  forward mask self startphrase ending0 ending1 ending2 ending3
          None metadata
  = (Ok [("logits", OutTensor (Tensor (logits_shape B) scores));
         ("probabilities",
          OutTensor (Tensor (logits_shape B)
                       (flat_map softmax_vec (rows 4 B scores))));
         ("loss", OutNone)],
     self).
Proof.
  unfold forward. rewrite forward_logits_eq.
  unfold logits_shape. now rewrite softmax_scores.
Qed.

(** With a label in [0, 4) for each of [B >= 2] examples, [forward]
    returns the mean cross entropy, which is not negative, and
    counts the [B] examples in the accuracy. *)
Lemma forward_labelled (label : LongTensor)
    (metadata : option Metadata) :
  (2 <= B)%nat ->
  shape label = [B] -> List.length (data label) = B ->
  Forall (fun t => (0 <= t < 4)%Z) (data label) ->
  exists loss a,
    forward mask self startphrase ending0 ending1 ending2 ending3
            (Some label) metadata
    = (Ok [("logits", OutTensor (Tensor (logits_shape B) scores));
           ("probabilities",
            OutTensor (Tensor (logits_shape B)
                         (flat_map softmax_vec (rows 4 B scores))));
           ("loss", OutLoss (Num loss))],
       set_accuracy self a)
    /\ (0 <= loss)%R
    /\ loss = (sum (map (fun st => nll (fst st) (snd st))
                        (combine (rows 4 B scores) (data label)))
               / INR B)%R
    /\ Metrics.total_count a
       = (Metrics.total_count (accuracy self) + B)%nat
    /\ (Metrics.correct_count (accuracy self)
        <= Metrics.correct_count a)%nat.
Proof.
  intros HB Hshape Hlen Hvalid.
  assert (HB1 : (B =? 1)%nat = false) by (apply Nat.eqb_neq; lia).
  destruct (@cross_entropy_batch B 4 (Tensor (logits_shape B) scores)
              (view_m1 label))
    as (loss & Hloss & Hmean & Hpos).
  { unfold logits_shape. now rewrite HB1. }
  { unfold view_m1. simpl. rewrite Hshape. simpl.
    now rewrite Nat.mul_1_r. }
  { apply length_dot_products. }
  { exact Hlen. }
  { lia. }
  { exact Hvalid. }
  destruct (@accuracy_counts_batch (accuracy self) B scores label)
    as (a & Hcall & Htotal & Hcorrect); auto.
  { rewrite Forall_forall in *. intros t Ht.
    specialize (Hvalid t Ht). lia. }
  pose proof (softmax_scores B scores) as Hsm.
  fold (logits_shape B) in Hsm.
  exists loss, a. split; [|auto].
  unfold forward. rewrite forward_logits_eq. cbv zeta.
  now rewrite Hloss, Hcall, Hsm.
Qed.

(** A batch of one example with labels: the logits have lost the
    batch dimension, and the cross entropy refuses them. *)
Lemma forward_labelled_one (label : LongTensor)
    (metadata : option Metadata) :
  B = 1%nat ->
  forward mask self startphrase ending0 ending1 ending2 ending3
          (Some label) metadata
  = (Raise RuntimeError, self).
Proof.
  intros HB. unfold forward. rewrite forward_logits_eq. cbv zeta.
  unfold logits_shape. rewrite HB. reflexivity.
Qed.

End Batch.

(** *** The output dictionary *)

(** C10: the dictionary that [forward] returns has exactly the keys
    [logits], [probabilities] and [loss]; without labels the [loss]
    key is there and holds [None]; with labels it holds the loss. *)
Theorem forward_output_keys
    (startphrase ending0 ending1 ending2 ending3 : TextFieldTensors)
    (label : option LongTensor) (metadata : option Metadata)
    (out : dict string output)
    (self' : SWAGExampleModel Vocabulary RegularizerApplicator
                              TextFieldTensors) :
  forward mask self startphrase ending0 ending1 ending2 ending3
          label metadata = (Ok out, self') ->
  dict_keys out = ["logits"; "probabilities"; "loss"]
  /\ match label with
     | None => dict_get String.eqb "loss" out = Some OutNone
     | Some _ => exists l, dict_get String.eqb "loss" out = Some (OutLoss l)
     end.
Proof.
  unfold forward.
  destruct (forward_logits _ _ _ _ _ _ _) as [logits|]; [|discriminate].
  destruct label as [label|].
  - destruct (CrossEntropyLoss _ _) as [loss|]; [|discriminate].
    destruct (Metrics.call _ _ _); [|discriminate].
    intros H. injection H as <- _. split; [reflexivity|].
    now exists loss.
  - intros H. injection H as <- _. split; reflexivity.
Qed.

(** *** The state of the model *)

Lemma set_accuracy_same
    (m : SWAGExampleModel Vocabulary RegularizerApplicator
                          TextFieldTensors) :
  set_accuracy m (accuracy m) = m.
Proof. now destruct m. Qed.

(** The metric call succeeds or fails whatever the counts are, and
    only adds to them. *)
Lemma accuracy_call_cases (a : Metrics.CategoricalAccuracy)
    (predictions : FloatTensor) (gold : LongTensor) :
  (exists e, forall a', Metrics.call a' predictions gold = Raise e)
  \/ (exists dc dt, forall a',
        Metrics.call a' predictions gold
        = Ok {| Metrics.correct_count := Metrics.correct_count a' + dc;
                Metrics.total_count := Metrics.total_count a' + dt |}).
Proof.
  unfold Metrics.call.
  destruct (split_last (shape predictions)) as [[pre c]|]; [|left; eauto].
  destruct (negb _); [left; eauto|].
  destruct (existsb _ _); [left; eauto|].
  destruct (shape_eqb _ _); [|left; eauto].
  right. eauto.
Qed.

(** One call of [forward]: the output does not depend on the counts
    of the accuracy, and the model afterwards is the model with counts
    that have not decreased, the same counts when there is no label. *)
Lemma forward_frame
    (m : SWAGExampleModel Vocabulary RegularizerApplicator
                          TextFieldTensors)
    (b : batch TextFieldTensors Metadata) :
  exists dc dt,
    (forall a,
        forward_batch mask (set_accuracy m a) b
        = (fst (forward_batch mask m b),
           set_accuracy m
             {| Metrics.correct_count := Metrics.correct_count a + dc;
                Metrics.total_count := Metrics.total_count a + dt |}))
    /\ (batch_label b = None -> dc = 0%nat /\ dt = 0%nat).
Proof.
  unfold forward_batch, forward.
  change (forward_logits mask (set_accuracy m ?a)) with
    (forward_logits mask m).
  destruct b as [sp e0 e1 e2 e3 label md]. cbn [batch_startphrase
    batch_ending0 batch_ending1 batch_ending2 batch_ending3 batch_label
    batch_metadata].
  assert (Hsame : forall a,
             set_accuracy m
               {| Metrics.correct_count := Metrics.correct_count a + 0;
                  Metrics.total_count := Metrics.total_count a + 0 |}
             = set_accuracy m a).
  { intros [c t]. simpl. now rewrite !Nat.add_0_r. }
  destruct (forward_logits mask m sp e0 e1 e2 e3) as [logits|e].
  2:{ exists 0%nat, 0%nat. split; [|auto]. intros a. now rewrite Hsame. }
  destruct label as [label|].
  2:{ exists 0%nat, 0%nat. split; [|auto]. intros a. now rewrite Hsame. }
  destruct (CrossEntropyLoss logits (view_m1 label)) as [loss|e].
  2:{ exists 0%nat, 0%nat. split; [|discriminate].
      intros a. now rewrite Hsame. }
  destruct (accuracy_call_cases (accuracy m) logits label)
    as [[e He]|(dc & dt & Hok)].
  - exists 0%nat, 0%nat. split; [|discriminate]. intros a.
    cbn [accuracy set_accuracy]. rewrite !He. now rewrite Hsame.
  - exists dc, dt. split; [|discriminate]. intros a.
    cbn [accuracy set_accuracy]. rewrite !Hok. reflexivity.
Qed.

Lemma forward_each_frame
    (batches : list (batch TextFieldTensors Metadata))
    (m : SWAGExampleModel Vocabulary RegularizerApplicator
                          TextFieldTensors) :
  exists dc dt,
    (forall a,
        forward_each mask (set_accuracy m a) batches
        = (map (fun b => fst (forward_batch mask m b)) batches,
           set_accuracy m
             {| Metrics.correct_count := Metrics.correct_count a + dc;
                Metrics.total_count := Metrics.total_count a + dt |}))
    /\ (forallb (fun b => match batch_label b with
                          | None => true
                          | Some _ => false
                          end) batches = true ->
        dc = 0%nat /\ dt = 0%nat).
Proof.
  induction batches as [|b batches (dc2 & dt2 & IH & IH0)].
  - exists 0%nat, 0%nat. split; [|auto]. intros [c t]. simpl.
    now rewrite !Nat.add_0_r.
  - destruct (forward_frame m b) as (dc1 & dt1 & H1 & H10).
    exists (dc1 + dc2)%nat, (dt1 + dt2)%nat. split.
    + intros a. cbn [forward_each map]. rewrite H1, IH.
      cbn [Metrics.correct_count Metrics.total_count].
      now rewrite !Nat.add_assoc.
    + cbn [forallb]. intros H. apply andb_true_iff in H.
      destruct H as [Hb Hbs].
      destruct (batch_label b); [discriminate|].
      destruct (H10 eq_refl), (IH0 Hbs). subst. auto.
Qed.

(** C7: over any sequence of calls of [forward] on a model, the model
    afterwards differs from the model before in its accuracy only, the
    counts of the accuracy have not decreased (so [forward] never
    resets them), and they are unchanged when no call had labels; every
    call returns what it would return on the model before the sequence,
    so that calls on equal inputs return equal outputs; and
    [get_metrics] leaves the model alone unless [reset] is true, when
    it sets the counts back to zero. *)
Theorem forward_only_touches_accuracy
    (batches : list (batch TextFieldTensors Metadata)) :
  let (outs, self') := forward_each mask self batches in
  self' = set_accuracy self (accuracy self')
  /\ (Metrics.total_count (accuracy self)
      <= Metrics.total_count (accuracy self'))%nat
  /\ (Metrics.correct_count (accuracy self)
      <= Metrics.correct_count (accuracy self'))%nat
  /\ outs = map (fun b => fst (forward_batch mask self b)) batches
  /\ (forall b : batch TextFieldTensors Metadata,
        fst (forward_batch mask self' b)
        = fst (forward_batch mask self b))
  /\ (if forallb (fun b => match batch_label b with
                           | None => true
                           | Some _ => false
                           end) batches
      then self' = self else True)
  /\ snd (get_metrics self' false) = self'
  /\ snd (get_metrics self' true) = set_accuracy self' Metrics.fresh.
Proof.
  destruct (forward_each_frame batches self) as (dc & dt & H & H0).
  specialize (H (accuracy self)). rewrite set_accuracy_same in H.
  rewrite H. cbn [accuracy set_accuracy Metrics.total_count
                  Metrics.correct_count].
  repeat split; try lia.
  - intros b.
    destruct (forward_frame self b) as (dc' & dt' & Hb & _).
    now rewrite Hb.
  - destruct (forallb _ batches); [|exact I].
    destruct (H0 eq_refl). subst.
    rewrite !Nat.add_0_r.
    destruct self as [v r t s e si [c tc]]. reflexivity.
Qed.

(** *** Construction *)

Lemma check_dimensions_match_cases (d1 d2 : nat) (n1 n2 : string) :
  (d1 = d2 /\ check_dimensions_match d1 d2 n1 n2 = Ok tt)
  \/ (d1 <> d2
      /\ check_dimensions_match d1 d2 n1 n2
         = Raise (ConfigurationError (n1 ++ " must match " ++ n2))).
Proof.
  unfold check_dimensions_match.
  destruct (d1 =? d2)%nat eqn:E.
  - left. apply Nat.eqb_eq in E. auto.
  - right. apply Nat.eqb_neq in E. auto.
Qed.

(** C4: the construction succeeds exactly when the output dimension of
    the embedder is the input dimension of both encoders and the two
    encoders have the same output dimension; otherwise it raises a
    configuration error, and there is no model to call [forward]
    on. *)
Theorem construction_checks_dimensions
    (vocab : Vocabulary)
    (text_field_embedder : TextFieldEmbedder TextFieldTensors)
    (startphrase_encoder ending_encoder : Seq2VecEncoder)
    (similarity : SimilarityFunction)
    (initializer : InitializerApplicator TextFieldTensors)
    (regularizer : option RegularizerApplicator) :
  let constructed :=
    __init__ vocab text_field_embedder startphrase_encoder ending_encoder
             similarity initializer regularizer in
  let matching :=
    embedder_output_dim text_field_embedder
    = get_input_dim startphrase_encoder
    /\ embedder_output_dim text_field_embedder
       = get_input_dim ending_encoder
    /\ get_output_dim startphrase_encoder
       = get_output_dim ending_encoder in
  ((exists m, constructed = Ok m) <-> matching)
  /\ match constructed with
     | Ok _ => matching
     | Raise e => ~ matching /\ exists what, e = ConfigurationError what
     end.
Proof.
  cbv zeta. unfold __init__.
  destruct (check_dimensions_match_cases
              (embedder_output_dim text_field_embedder)
              (get_input_dim startphrase_encoder)
              "text field embedding dim" "startphrase encoder input dim")
    as [[E1 ->]|[E1 ->]]; cbn [bind].
  2:{ split; [split; [intros [m Hm]; discriminate|tauto]|].
      split; [tauto|eauto]. }
  destruct (check_dimensions_match_cases
              (embedder_output_dim text_field_embedder)
              (get_input_dim ending_encoder)
              "text field embedding dim" "ending encoder input dim")
    as [[E2 ->]|[E2 ->]]; cbn [bind].
  2:{ split; [split; [intros [m Hm]; discriminate|tauto]|].
      split; [tauto|eauto]. }
  destruct (check_dimensions_match_cases
              (get_output_dim startphrase_encoder)
              (get_output_dim ending_encoder)
              "startphrase embedding dim" "ending embedding dim")
    as [[E3 ->]|[E3 ->]]; cbn [bind].
  2:{ split; [split; [intros [m Hm]; discriminate|tauto]|].
      split; [tauto|eauto]. }
  split; [split; [tauto|eauto]|tauto].
Qed.

(** [forward] reads the embedder, the two encoders and the accuracy,
    and nothing else of the model. *)
Lemma forward_reads
    (m1 m2 : SWAGExampleModel Vocabulary RegularizerApplicator
                              TextFieldTensors)
    (b : batch TextFieldTensors Metadata) :
  Models.text_field_embedder m1 = Models.text_field_embedder m2 ->
  Models.startphrase_encoder m1 = Models.startphrase_encoder m2 ->
  Models.ending_encoder m1 = Models.ending_encoder m2 ->
  accuracy m1 = accuracy m2 ->
  fst (forward_batch mask m1 b) = fst (forward_batch mask m2 b)
  /\ accuracy (snd (forward_batch mask m1 b))
     = accuracy (snd (forward_batch mask m2 b)).
Proof.
  destruct m1, m2. cbn [Models.text_field_embedder
    Models.startphrase_encoder Models.ending_encoder accuracy].
  intros -> -> -> ->.
  unfold forward_batch, forward, forward_logits.
  cbn [Models.text_field_embedder Models.startphrase_encoder
       Models.ending_encoder accuracy]. cbv zeta.
  destruct (bind _ _); [|auto].
  destruct (batch_label b); [|auto].
  destruct (CrossEntropyLoss _ _); [|auto].
  destruct (Metrics.call _ _ _); auto.
Qed.

(** C8: two models constructed from the same arguments but for the
    similarity function are both constructed or both refused with the
    same error, each keeps the similarity function it was given, and
    [forward] returns the same outputs and counts the same accuracy on
    both for every batch: the similarity function is never applied. *)
Theorem similarity_is_never_used
    (vocab : Vocabulary)
    (text_field_embedder : TextFieldEmbedder TextFieldTensors)
    (startphrase_encoder ending_encoder : Seq2VecEncoder)
    (similarity1 similarity2 : SimilarityFunction)
    (initializer : InitializerApplicator TextFieldTensors)
    (regularizer : option RegularizerApplicator) :
  match __init__ vocab text_field_embedder startphrase_encoder
                 ending_encoder similarity1 initializer regularizer,
        __init__ vocab text_field_embedder startphrase_encoder
                 ending_encoder similarity2 initializer regularizer
  with
  | Ok m1, Ok m2 =>
      compute_similarity (Models.similarity m1)
      = init_similarity initializer (compute_similarity similarity1)
      /\ compute_similarity (Models.similarity m2)
         = init_similarity initializer (compute_similarity similarity2)
      /\ forall b : batch TextFieldTensors Metadata,
           fst (forward_batch mask m1 b) = fst (forward_batch mask m2 b)
           /\ accuracy (snd (forward_batch mask m1 b))
              = accuracy (snd (forward_batch mask m2 b))
  | Raise e1, Raise e2 => e1 = e2
  | _, _ => False
  end.
Proof.
  unfold __init__.
  destruct (check_dimensions_match _ _ _ _); cbn [bind]; [|reflexivity].
  destruct (check_dimensions_match _ _ _ _); cbn [bind]; [|reflexivity].
  destruct (check_dimensions_match _ _ _ _); cbn [bind]; [|reflexivity].
  split; [reflexivity|]. split; [reflexivity|].
  intros b. apply forward_reads; reflexivity.
Qed.
End Model.
End ModelsSpec.

Module ModelsExamples.
Import Torch Models Fixtures.

Lemma one_encodes_batch :
  encodes_batch token_mask model 1 1
    (one 1 2) (one 3 4) (one 5 6) (one 7 8) (one 1 1).
Proof. repeat split; reflexivity. Qed.

Lemma two_encodes_batch :
  encodes_batch token_mask model 2 1
    (two 1 2 2 1) (two 3 4 1 1) (two 5 6 2 2) (two 7 8 3 3) (two 1 1 4 4).
Proof. repeat split; reflexivity. Qed.

(** C1 fails on a batch of one example: every field of the batch holds
    one sequence, and the logits and the probabilities that [forward]
    returns have the shape [4], not [1 x 4]. *)
Theorem batch_of_one_loses_its_dimension :
  exists logits probabilities,
    forward_one None
    = (Ok [("logits", OutTensor logits);
           ("probabilities", OutTensor probabilities);
           ("loss", OutNone)],
       model)
    /\ shape (one 1 2) = [1%nat; 2%nat]
    /\ shape logits = [4%nat]
    /\ shape probabilities = [4%nat]
    /\ shape logits <> [1%nat; 4%nat].
Proof.
  eexists. eexists. split.
  - unfold forward_one.
    apply (ModelsSpec.forward_unlabelled (Metadata := unit)
             one_encodes_batch None).
  - repeat split; try reflexivity. discriminate.
Qed.

(** A batch of two examples keeps its shape, and the probabilities of
    each example sum to one. *)
Example batch_of_two_shapes :
  exists logits probabilities,
    forward_two None
    = (Ok [("logits", OutTensor logits);
           ("probabilities", OutTensor probabilities);
           ("loss", OutNone)],
       model)
    /\ shape logits = [2%nat; 4%nat]
    /\ shape probabilities = [2%nat; 4%nat]
    /\ sum (row 4 (data probabilities) 0) = 1%R
    /\ sum (row 4 (data probabilities) 1) = 1%R.
Proof.
  eexists. eexists. split.
  - unfold forward_two.
    apply (ModelsSpec.forward_unlabelled (Metadata := unit)
             two_encodes_batch None).
  - split; [reflexivity|]. split; [reflexivity|].
    split; apply TorchFacts.probabilities_sum_to_one; lia.
Qed.

(** C6 fails on a batch of one example with its label: the logits have
    the shape [4], the cross entropy refuses them, and [forward] raises:
    no loss is returned and the accuracy is not updated. *)
Theorem labelled_batch_of_one_raises :
  forward_one (Some (Tensor [1%nat] [0%Z])) = (Raise RuntimeError, model).
Proof.
  unfold forward_one.
  apply (ModelsSpec.forward_labelled_one (Metadata := unit)
           one_encodes_batch (Tensor [1%nat] [0%Z]) None).
  reflexivity.
Qed.

(** A batch of two examples with their labels has a loss that is not
    negative, and both examples are counted. *)
Example labelled_batch_of_two :
  exists logits probabilities loss a,
    forward_two (Some (Tensor [2%nat] [0%Z; 3%Z]))
    = (Ok [("logits", OutTensor logits);
           ("probabilities", OutTensor probabilities);
           ("loss", OutLoss (Num loss))],
       set_accuracy model a)
    /\ (0 <= loss)%R
    /\ Metrics.total_count a = 2%nat.
Proof.
  destruct (ModelsSpec.forward_labelled (Metadata := unit)
              two_encodes_batch (Tensor [2%nat] [0%Z; 3%Z]) None)
    as (loss & a & H & Hpos & _ & Ht & _).
  - lia.
  - reflexivity.
  - reflexivity.
  - repeat constructor; simpl; lia.
  - do 2 eexists. exists loss, a. split; [exact H|]. split; [exact Hpos|].
    exact Ht.
Qed.


Lemma forward_output_keys_witness :
  exists out,
    fst (forward_two None) = Ok out
    /\ dict_keys out = ["logits"; "probabilities"; "loss"]
    /\ dict_get String.eqb "loss" out = Some OutNone.
Proof.
  eexists. split; [reflexivity|].
  apply (ModelsSpec.forward_output_keys (Metadata := unit)
           token_mask model
           (two 1 2 2 1) (two 3 4 1 1) (two 5 6 2 2) (two 7 8 3 3)
           (two 1 1 4 4) None None (self' := model)).
  reflexivity.
Defined.

(** Encoders whose output dimensions differ are refused. *)
Example construction_refuses_mismatch :
  __init__ tt index_embedder bag_of_embeddings wide_encoder first_argument
           keep_weights (None : option unit)
  = Raise (ConfigurationError
             "startphrase embedding dim must match ending embedding dim").
Proof. reflexivity. Qed.

(** Two models that differ in the similarity function give one output. *)
Example similarity_makes_no_difference :
  forward (Metadata := unit) token_mask (model_with second_argument)
          (two 1 2 2 1) (two 3 4 1 1) (two 5 6 2 2) (two 7 8 3 3)
          (two 1 1 4 4) None None
  = (fst (forward_two None), model_with second_argument).
Proof. reflexivity. Qed.

Example construction_accepts_match :
  __init__ tt index_embedder bag_of_embeddings bag_of_embeddings
           first_argument keep_weights (None : option unit)
  = Ok model.
Proof. reflexivity. Qed.

End ModelsExamples.

(** ** More on the dataset reader *)

Module ReadersMore.
Import Readers DictFacts CsvFacts ReadersAux.

(** A column of the header is a key of every row, with a cell or with
    [None]. *)
Lemma get_present (fieldnames r : Csv.row) (c : string) :
  In c fieldnames ->
  exists v, Csv.get c (Csv.to_dict fieldnames r) = Some v.
Proof.
  intros Hc. unfold Csv.get, Csv.to_dict, dict_of. cbv zeta.
  set (pairs := map (fun kv : string * string =>
                       (Some (fst kv), PyStr (snd kv)))
                    (combine fieldnames r)).
  assert (Hfirst : In c (firstn (List.length r) fieldnames) ->
                   exists v, dict_get Csv.key_eqb (Some c)
                               (dict_update Csv.key_eqb pairs []) = Some v).
  { intros Hin.
    destruct (@get_assigned value (Some c) pairs []) as (v & _ & Hv).
    - unfold pairs. rewrite keys_of_combine. now apply in_map.
    - eauto. }
  destruct (List.length fieldnames <? List.length r)%nat eqn:E1.
  - rewrite get_set_other by discriminate.
    apply Hfirst. apply Nat.ltb_lt in E1.
    rewrite firstn_all2 by lia. exact Hc.
  - destruct (List.length r <? List.length fieldnames)%nat eqn:E2.
    + destruct (in_dec string_dec c (skipn (List.length r) fieldnames))
        as [Hin|Hout].
      * destruct (@get_assigned value (Some c)
                    (map (fun k => (Some k, PyNone))
                         (skipn (List.length r) fieldnames))
                    (dict_update Csv.key_eqb pairs [])) as (v & _ & Hv).
        { rewrite map_map. simpl. now apply in_map. }
        eauto.
      * rewrite get_not_assigned.
        -- apply Hfirst.
           rewrite <- (firstn_skipn (List.length r) fieldnames) in Hc.
           apply in_app_or in Hc. tauto.
        -- rewrite map_map. simpl. rewrite in_map_iff.
           intros (k & Ek & Hk). injection Ek as ->. contradiction.
    + apply Hfirst. apply Nat.ltb_ge in E1. apply Nat.ltb_ge in E2.
      rewrite firstn_all2 by lia. exact Hc.
Qed.

Section Reader.
Variables (Token TokenIndexers : Type).
Variable self : SWAGDatasetReader Token TokenIndexers.

Lemma getitem_present (fieldnames r : Csv.row) (c : string) :
  In c fieldnames ->
  exists v, getitem (Csv.to_dict fieldnames r) c = Ok v.
Proof.
  intros Hc. unfold getitem.
  destruct (get_present fieldnames r c Hc) as [v ->]. eauto.
Qed.

Lemma getitem_absent (fieldnames r : Csv.row) (c : string) :
  ~ In c fieldnames ->
  getitem (Csv.to_dict fieldnames r) c = Raise (KeyError c).
Proof.
  intros Hc. unfold getitem. now rewrite get_absent.
Qed.

Lemma not_existsb_eqb (c : string) (l : list string) :
  negb (existsb (String.eqb c) l) = true <-> ~ In c l.
Proof.
  rewrite negb_true_iff, <- existsb_eqb_In.
  destruct (existsb _ l); split; congruence.
Qed.

Lemma existsb_eqb_present (c : string) (l : list string) :
  negb (existsb (String.eqb c) l) = false -> In c l.
Proof.
  rewrite negb_false_iff. apply existsb_eqb_In.
Qed.

(** A row of a header that lacks a text column fails with the [KeyError]
    of the first column that is missing. *)
Lemma read_row_missing_column (fieldnames r : Csv.row) (c : string) :
  first_missing_column fieldnames = Some c ->
  read_row self (Csv.to_dict fieldnames r) = Raise (KeyError c).
Proof.
  unfold first_missing_column, text_columns, read_row. cbn [find].
  repeat match goal with
  | |- context [negb (existsb (String.eqb ?k) fieldnames)] =>
      let E := fresh "E" in
      destruct (negb (existsb (String.eqb k) fieldnames)) eqn:E;
      [ apply not_existsb_eqb in E; intros H; injection H as <-;
        rewrite (@getitem_absent fieldnames r _ E); reflexivity
      | apply existsb_eqb_present in E;
        let v := fresh "v" in let Hv := fresh "Hv" in
        destruct (@getitem_present fieldnames r _ E) as [v Hv];
        rewrite Hv; cbn [bind] ]
  end.
  intros H. discriminate H.
Qed.

(** X1: when the header lacks one of the five text columns, [_read] stops at
    the first data row that is not blank: it yields nothing and raises the
    [KeyError] of the first column that is missing, whatever the row
    holds. *)
Theorem missing_column_raises_key_error
    (fieldnames : Csv.row) (rows : list Csv.row) (c : string) :
  first_missing_column fieldnames = Some c ->
  existsb (fun r => negb (Csv.is_blank r)) rows = true ->
  _read self (fieldnames :: rows) = ([], Some (KeyError c)).
Proof.
  intros Hc Hrows. unfold _read. cbn [Csv.DictReader].
  destruct (filter (fun r => negb (Csv.is_blank r)) rows) as [|r rest] eqn:E.
  - apply existsb_exists in Hrows. destruct Hrows as (r & Hin & Hr).
    assert (Hf : In r (filter (fun r => negb (Csv.is_blank r)) rows))
      by (apply filter_In; auto).
    rewrite E in Hf. contradiction.
  - cbn [map read_rows]. now rewrite (@read_row_missing_column fieldnames r c Hc).
Qed.

Lemma read_rows_app (ds1 ds2 : list Csv.row_dict)
    (insts : list (Instance Token TokenIndexers)) :
  read_rows self ds1 = (insts, None) ->
  read_rows self (ds1 ++ ds2)
  = ((insts ++ fst (read_rows self ds2))%list, snd (read_rows self ds2)).
Proof.
  revert insts. induction ds1 as [|d ds1 IH]; intros insts; simpl.
  - intros H. injection H as <-. now destruct (read_rows self ds2).
  - destruct (read_row self d) as [i|e]; [|discriminate].
    destruct (read_rows self ds1) as [yielded o] eqn:E.
    intros H. injection H as <- ->.
    rewrite (IH yielded eq_refl). reflexivity.
Qed.

(** X2: [_read] stops at the first row that fails: the complete rows before
    it are yielded, each as its instance and in order, then the exception
    of the failing row is raised, and no row after it is read. *)
Theorem read_stops_at_first_bad_row
    (fieldnames : Csv.row) (rows1 : list Csv.row) (r : Csv.row)
    (rows2 : list Csv.row) (e : exn) :
  (forall r' c, In r' rows1 -> In c text_columns ->
                Csv.has_cell fieldnames r' c = true) ->
  r <> [] ->
  read_row self (Csv.to_dict fieldnames r) = Raise e ->
  exists insts,
    _read self (fieldnames :: rows1 ++ r :: rows2) = (insts, Some e)
    /\ List.length insts = List.length rows1
    /\ Forall2 (fun r' i => read_row self (Csv.to_dict fieldnames r') = Ok i)
               rows1 insts.
Proof.
  intros Hcells Hr He.
  destruct (ReadersSpec.read_rows_all self (Csv.to_dict fieldnames) rows1)
    as (insts & Hread & Hall).
  { intros r' Hr'. apply ReadersSpec.read_row_has_cells.
    intros c Hc. now apply Hcells. }
  exists insts. split; [|split; [symmetry; exact (Forall2_length Hall)|exact Hall]].
  unfold _read. cbn [Csv.DictReader].
  rewrite filter_app. cbn [filter].
  assert (Hkeep : filter (fun r => negb (Csv.is_blank r)) rows1 = rows1).
  { apply forallb_filter_id, forallb_forall. intros r' Hr'.
    specialize (Hcells r' "startphrase" Hr' (or_introl eq_refl)).
    destruct r'; [discriminate Hcells|reflexivity]. }
  rewrite Hkeep.
  destruct r as [|x r]; [congruence|]. cbn [Csv.is_blank negb].
  rewrite map_app. rewrite (@read_rows_app _ _ insts Hread).
  cbn [map read_rows]. rewrite He. cbn [fst snd].
  now rewrite app_nil_r.
Qed.

(** X3: blank rows do not count: [_read] yields what it yields on the file
    without them, and on a file whose data rows are all blank it yields
    nothing and raises nothing, whatever the header. *)
Theorem blank_rows_do_not_count (fieldnames : Csv.row) (rows : list Csv.row) :
  (forall rows1 rows2,
      rows = (rows1 ++ [] :: rows2)%list ->
      _read self (fieldnames :: rows)
      = _read self (fieldnames :: rows1 ++ rows2))
  /\ (forallb Csv.is_blank rows = true ->
      _read self (fieldnames :: rows) = ([], None)).
Proof.
  split.
  - intros rows1 rows2 ->. unfold _read. cbn [Csv.DictReader].
    now rewrite !filter_app.
  - intros Hblank. unfold _read. cbn [Csv.DictReader].
    assert (E : filter (fun r => negb (Csv.is_blank r)) rows = []).
    { induction rows as [|r rows IH]; [reflexivity|].
      cbn [forallb] in Hblank. apply andb_true_iff in Hblank.
      destruct Hblank as [Hr Hrows]. cbn [filter]. rewrite Hr.
      now apply IH. }
    now rewrite E.
Qed.

Lemma combine_surplus (A C : Type) (l : list A) (l1 l2 : list C) :
  List.length l1 = List.length l -> combine l (l1 ++ l2) = combine l l1.
Proof.
  revert l1. induction l as [|a l IH]; intros [|c l1] H; simpl in *;
    try discriminate; try reflexivity.
  f_equal. apply IH. lia.
Qed.

Lemma read_row_ext (d1 d2 : Csv.row_dict) :
  (forall c, Csv.get c d1 = Csv.get c d2) ->
  read_row self d1 = read_row self d2.
Proof.
  intros H. unfold read_row, getitem, get_or_none. now rewrite !H.
Qed.

(** X4: the cells of a row beyond the last column of the header are ignored:
    the row is read as the row without them. *)
Theorem surplus_cells_are_ignored (fieldnames r surplus : Csv.row) :
  List.length r = List.length fieldnames ->
  read_row self (Csv.to_dict fieldnames (r ++ surplus)%list)
  = read_row self (Csv.to_dict fieldnames r).
Proof.
  intros Hlen. apply read_row_ext. intros c.
  unfold Csv.get, Csv.to_dict. cbv zeta.
  rewrite combine_surplus by assumption.
  rewrite length_app, Hlen, Nat.ltb_irrefl.
  destruct (List.length fieldnames <? List.length fieldnames + List.length surplus)%nat
    eqn:E1.
  - now rewrite get_set_other by discriminate.
  - destruct (List.length fieldnames + List.length surplus <? List.length fieldnames)%nat
      eqn:E2; [|reflexivity].
    apply Nat.ltb_lt in E2. lia.
Qed.

Lemma read_rows_yielded (ds : list Csv.row_dict)
    (i : Instance Token TokenIndexers) :
  In i (fst (read_rows self ds)) ->
  exists d, In d ds /\ read_row self d = Ok i.
Proof.
  induction ds as [|d ds IH]; simpl; [contradiction|].
  destruct (read_row self d) as [i'|e] eqn:E; [|contradiction].
  destruct (read_rows self ds) as [yielded o]. simpl in *.
  intros [<-|Hin].
  - exists d. auto.
  - destruct (IH Hin) as (d' & Hd' & Hi). exists d'. auto.
Qed.

(** X5: every instance that [_read] yields has the five text fields, in the
    order of [text_to_instance], and after them a label field or nothing;
    each text field holds tokens with the token indexers of the reader. *)
Theorem yielded_instances_have_the_text_fields
    (f : Csv.file) (i : Instance Token TokenIndexers) :
  In i (fst (_read self f)) ->
  (dict_keys i = text_columns
   \/ dict_keys i = (text_columns ++ ["label"])%list)
  /\ Forall (fun c => exists tokens,
                field c i = Some (TextField tokens (token_indexers self)))
            text_columns.
Proof.
  intros Hin. apply read_rows_yielded in Hin.
  destruct Hin as (d & _ & Hd). apply ReadersSpec.read_row_inv in Hd.
  destruct Hd as (t & t0 & t1 & t2 & t3 & [[_ ->]|(s & _ & ->)]);
    (split; [auto|]); repeat constructor; eexists; reflexivity.
Qed.

(** X6: [text_to_instance] returns an instance exactly when the tokenizer
    returns tokens for each of the five texts and the label is [None] or
    a string.  It raises what the tokenizer raises on one of the texts,
    or, once the five texts are tokenized, the configuration error of
    [LabelField] for a label of another type, such as the integer that
    the annotation [Optional[int]] announces.  The instance has a label
    field exactly when the label is a string, the empty one included. *)
Theorem text_to_instance_needs_tokens_and_a_str_label
    (startphrase ending0 ending1 ending2 ending3 label : value) :
  let tokenized :=
    is_ok (tokenize self startphrase) && is_ok (tokenize self ending0)
    && is_ok (tokenize self ending1) && is_ok (tokenize self ending2)
    && is_ok (tokenize self ending3) in
  match text_to_instance self startphrase ending0 ending1 ending2 ending3
                         label with
  | Ok i =>
      tokenized = true
      /\ is_label label = true
      /\ (field "label" i = None <-> label = PyNone)
      /\ (forall s, label = PyStr s ->
                    field "label" i = Some (LabelField _ _ (PyStr s)))
  | Raise e =>
      In (Raise e)
         [tokenize self startphrase; tokenize self ending0;
          tokenize self ending1; tokenize self ending2;
          tokenize self ending3]
      \/ (tokenized = true
          /\ is_label label = false
          /\ exists what, e = ConfigurationError what)
  end.
Proof.
  cbv zeta. unfold text_to_instance, text_field.
  destruct (tokenize self startphrase) as [t|x]; cbn [bind is_ok andb];
    [|left; simpl; tauto].
  destruct (tokenize self ending0) as [t0|x]; cbn [bind is_ok andb];
    [|left; simpl; tauto].
  destruct (tokenize self ending1) as [t1|x]; cbn [bind is_ok andb];
    [|left; simpl; tauto].
  destruct (tokenize self ending2) as [t2|x]; cbn [bind is_ok andb];
    [|left; simpl; tauto].
  destruct (tokenize self ending3) as [t3|x]; cbn [bind is_ok andb];
    [|left; simpl; tauto].
  destruct label as [|s|z|cells]; cbn.
  - repeat split; intros; congruence.
  - repeat split; intros; congruence.
  - right. repeat split. eauto.
  - right. repeat split. eauto.
Qed.

End Reader.
End ReadersMore.

Module ReadersMoreExamples.
Import Readers Fixtures.

Lemma missing_column_raises_key_error_witness :
  _read reader [["startphrase"; "ending0"; "ending1"; "ending3"; "label"];
                [];
                ["A man is sitting."; "He stands up."; "He flies away.";
                 "He sleeps."; "0"]]
  = ([], Some (KeyError "ending2")).
Proof.
  apply (ReadersMore.missing_column_raises_key_error reader
           ["startphrase"; "ending0"; "ending1"; "ending3"; "label"]
           [[]; ["A man is sitting."; "He stands up."; "He flies away.";
                 "He sleeps."; "0"]] (c := "ending2"));
    reflexivity.
Defined.

Lemma read_stops_at_first_bad_row_witness :
  exists insts,
    _read reader (labelled_header
                    :: [sitting_man "0"] ++ short_row :: [sitting_man "1"])
    = (insts, Some AttributeError)
    /\ List.length insts = 1%nat
    /\ Forall2 (fun r' i =>
                  read_row reader (Csv.to_dict labelled_header r') = Ok i)
               [sitting_man "0"] insts.
Proof.
  apply (ReadersMore.read_stops_at_first_bad_row reader labelled_header
           [sitting_man "0"] (r := short_row) [sitting_man "1"]).
  - intros r' c [<-|[]] Hc; simpl in Hc;
      repeat (destruct Hc as [<-|Hc]; [reflexivity|]); destruct Hc.
  - discriminate.
  - reflexivity.
Defined.

Lemma surplus_cells_are_ignored_witness :
  read_row reader
    (Csv.to_dict labelled_header (sitting_man "1" ++ ["He"; "wakes"])%list)
  = read_row reader (Csv.to_dict labelled_header (sitting_man "1")).
Proof.
  apply (ReadersMore.surplus_cells_are_ignored reader labelled_header
           (sitting_man "1") ["He"; "wakes"]).
  reflexivity.
Defined.

Lemma yielded_instances_have_the_text_fields_witness :
  (dict_keys (text_fields reader "A man is sitting." "He stands up."
                "He flies away." "He eats soup." "He sleeps.")
   = text_columns
   \/ dict_keys (text_fields reader "A man is sitting." "He stands up."
                   "He flies away." "He eats soup." "He sleeps.")
      = (text_columns ++ ["label"])%list)
  /\ Forall (fun c => exists tokens,
                field c (text_fields reader "A man is sitting."
                           "He stands up." "He flies away." "He eats soup."
                           "He sleeps.")
                = Some (TextField tokens (token_indexers reader)))
            text_columns.
Proof.
  apply (ReadersMore.yielded_instances_have_the_text_fields reader
           [text_header; firstn 5 (sitting_man "0")]).
  left. reflexivity.
Defined.

End ReadersMoreExamples.

(** ** More on the scoring model *)

Module ModelsMore.
Import Torch Models TorchFacts ModelsAux.

Lemma shape_eqb_eq (s1 s2 : list nat) : shape_eqb s1 s2 = true <-> s1 = s2.
Proof.
  revert s2. induction s1 as [|d1 s1 IH]; intros [|d2 s2]; simpl;
    try (split; congruence).
  rewrite andb_true_iff, Nat.eqb_eq, IH. split.
  - intros [-> ->]. reflexivity.
  - intros H. injection H as -> ->. auto.
Qed.

Lemma split_last_some (s pre : list nat) (d : nat) :
  split_last s = Some (pre, d) -> s = (pre ++ [d])%list.
Proof.
  revert pre. induction s as [|x s IH]; intros pre; simpl; [discriminate|].
  destruct (split_last s) as [[pre' l]|] eqn:E.
  - intros H. injection H as <- <-. simpl. f_equal. now apply IH.
  - intros H. injection H as <- <-.
    destruct s as [|y s]; [reflexivity|].
    simpl in E. destruct (split_last s) as [[? ?]|]; discriminate.
Qed.

Lemma split_last_matrix (B D : nat) : split_last [B; D] = Some ([B], D).
Proof. reflexivity. Qed.

Lemma exp_le_iff (x y : R) : (exp x <= exp y <-> x <= y)%R.
Proof.
  split; intros H.
  - destruct (Rle_or_lt x y) as [Hle|Hlt]; [exact Hle|].
    apply exp_increasing in Hlt. lra.
  - destruct H as [Hlt | ->]; [|lra].
    apply exp_increasing in Hlt. lra.
Qed.

Lemma nth_softmax_vec (v : list R) (i : nat) :
  (i < List.length v)%nat ->
  nth i (softmax_vec v) 0%R = (exp (nth i v 0) / sum (map exp v))%R.
Proof.
  intros Hi. unfold softmax_vec. cbv zeta.
  rewrite nth_indep with (d' := (exp 0 / sum (map exp v))%R)
    by now rewrite length_map.
  now rewrite (map_nth (fun x => (exp x / sum (map exp v))%R)).
Qed.

(** The softmax keeps the order of the scores. *)
Lemma softmax_vec_order (v : list R) (i j : nat) :
  (i < List.length v)%nat -> (j < List.length v)%nat ->
  (nth i (softmax_vec v) 0 <= nth j (softmax_vec v) 0
   <-> nth i v 0 <= nth j v 0)%R.
Proof.
  intros Hi Hj. rewrite !nth_softmax_vec by assumption.
  assert (Hz : (0 < sum (map exp v))%R).
  { apply sum_exp_pos. destruct v; simpl in *; [lia|discriminate]. }
  rewrite <- (exp_le_iff (nth i v 0%R) (nth j v 0%R)). unfold Rdiv.
  split; intros H.
  - apply Rmult_le_reg_r with (r := (/ sum (map exp v))%R); [|exact H].
    now apply Rinv_0_lt_compat.
  - apply Rmult_le_compat_r; [|exact H].
    apply Rlt_le. now apply Rinv_0_lt_compat.
Qed.

Lemma combine_map_seq (A : Type) (f : nat -> A) (l : list Z) (n : nat) :
  List.length l = n ->
  combine (map f (seq 0 n)) l
  = map (fun b => (f b, nth b l 0%Z)) (seq 0 n).
Proof.
  revert f n. induction l as [|z l IH]; intros f n Hn; simpl in Hn; subst n.
  - reflexivity.
  - cbn [seq map combine nth]. f_equal.
    rewrite <- seq_shift, !map_map. apply (IH (fun b => f (S b))).
    reflexivity.
Qed.

Section Model.
Variables (Vocabulary RegularizerApplicator TextFieldTensors Metadata : Type).
Variable mask : TextFieldTensors -> LongTensor.

(** X9: [forward] computes logits exactly when the encoders return five
    tensors of one shape [B x D]: the logits then have the shape that
    [squeeze] leaves of [B x 4 x 1]; in every other case the stacking or
    the matrix product raises. *)
Theorem forward_logits_needs_one_shape
    (self : SWAGExampleModel Vocabulary RegularizerApplicator
                             TextFieldTensors)
    (startphrase ending0 ending1 ending2 ending3 : TextFieldTensors) :
  match forward_logits mask self startphrase ending0 ending1 ending2
                       ending3 with
  | Ok logits =>
      exists B D,
        one_shape mask self B D startphrase ending0 ending1 ending2 ending3
        /\ shape logits = logits_shape B
  | Raise e =>
      (e = RuntimeError \/ e = IndexError)
      /\ forall B D,
          ~ one_shape mask self B D startphrase ending0 ending1 ending2 ending3
  end.
Proof.
  unfold one_shape, forward_logits. cbv zeta.
  fold (encoded_startphrase mask self startphrase).
  fold (encoded_ending mask self ending0).
  fold (encoded_ending mask self ending1).
  fold (encoded_ending mask self ending2).
  fold (encoded_ending mask self ending3).
  set (S := encoded_startphrase mask self startphrase).
  set (E0 := encoded_ending mask self ending0).
  set (E1 := encoded_ending mask self ending1).
  set (E2 := encoded_ending mask self ending2).
  set (E3 := encoded_ending mask self ending3).
  unfold stack_m2. cbn [forallb].
  destruct (shape_eqb (shape E0) (shape E0)) eqn:H00.
  2:{ assert (shape_eqb (shape E0) (shape E0) = true)
        by now apply shape_eqb_eq.
      congruence. }
  destruct (shape_eqb (shape E1) (shape E0)) eqn:H1.
  2:{ cbn. split; [auto|]. intros B D (_ & A0 & A1 & _).
      rewrite A0, A1 in H1.
      assert (shape_eqb [B; D] [B; D] = true) by now apply shape_eqb_eq.
      congruence. }
  destruct (shape_eqb (shape E2) (shape E0)) eqn:H2.
  2:{ cbn. split; [auto|]. intros B D (_ & A0 & _ & A2 & _).
      rewrite A0, A2 in H2.
      assert (shape_eqb [B; D] [B; D] = true) by now apply shape_eqb_eq.
      congruence. }
  destruct (shape_eqb (shape E3) (shape E0)) eqn:H3.
  2:{ cbn. split; [auto|]. intros B D (_ & A0 & _ & _ & A3).
      rewrite A0, A3 in H3.
      assert (shape_eqb [B; D] [B; D] = true) by now apply shape_eqb_eq.
      congruence. }
  apply shape_eqb_eq in H1, H2, H3. cbn [andb].
  destruct (split_last (shape E0)) as [[pre d]|] eqn:Hsplit.
  2:{ cbn. split; [auto|]. intros B D (_ & A0 & _).
      rewrite A0 in Hsplit. discriminate. }
  apply split_last_some in Hsplit. cbn [bind].
  unfold bmm, unsqueeze_m1. cbn [shape List.length].
  destruct pre as [|ba [|y pre]].
  - cbn. split; [auto|]. intros B D (_ & A0 & _).
    rewrite A0 in Hsplit. discriminate.
  - cbn [app].
    destruct (shape S) as [|bb [|m' [|z s']]] eqn:HS; cbn [app].
    + cbn. split; [auto|]. intros B D (A & _). discriminate.
    + cbn. split; [auto|]. intros B D (A & _). discriminate.
    + destruct ((ba =? bb) && (d =? m'))%nat eqn:Hdims; cbn [bind].
      * apply andb_true_iff in Hdims. destruct Hdims as [Hb Hd].
        apply Nat.eqb_eq in Hb, Hd. subst bb m'.
        exists ba, d. simpl in Hsplit.
        rewrite H1, H2, H3, Hsplit. repeat split.
        now rewrite squeeze_scores.
      * cbn. split; [auto|]. intros B D (A & A0 & _).
        rewrite A0 in Hsplit. simpl in Hsplit.
        injection Hsplit as <- <-. injection A as <- <-.
        rewrite !Nat.eqb_refl in Hdims. discriminate.
    + destruct s'; cbn; (split; [auto|]); intros B D (A & _); discriminate.
  - destruct pre as [|z pre]; [|destruct pre]; cbn; (split; [auto|]);
      intros B D (_ & A0 & _); rewrite A0 in Hsplit; simpl in Hsplit;
      discriminate.
Qed.

(** X10: a call of [forward] that raises leaves the model as it was: the
    accuracy is updated last, after its own checks, so that no exception
    leaves it half updated.  A call that returns changes the accuracy at
    most. *)
Theorem forward_is_exception_safe
    (self : SWAGExampleModel Vocabulary RegularizerApplicator
                             TextFieldTensors)
    (startphrase ending0 ending1 ending2 ending3 : TextFieldTensors)
    (label : option LongTensor) (metadata : option Metadata) :
  match forward mask self startphrase ending0 ending1 ending2 ending3
                label metadata with
  | (Raise _, self') => self' = self
  | (Ok _, self') => self' = set_accuracy self (accuracy self')
  end.
Proof.
  unfold forward.
  destruct (forward_logits _ _ _ _ _ _ _); [|reflexivity].
  destruct label as [label|].
  - destruct (CrossEntropyLoss _ _); [|reflexivity].
    destruct (Metrics.call _ _ _); reflexivity.
  - now destruct self.
Qed.

(** *** The counts of the accuracy *)

Lemma call_consistent (a a' : Metrics.CategoricalAccuracy)
    (predictions : FloatTensor) (gold : LongTensor) :
  Metrics.call a predictions gold = Ok a' ->
  consistent a -> consistent a'.
Proof.
  unfold Metrics.call, consistent.
  destruct (split_last (shape predictions)) as [[pre c]|]; [|discriminate].
  destruct (negb _); [discriminate|].
  destruct (existsb _ _); [discriminate|].
  destruct (shape_eqb (shape gold) pre) eqn:E; [|discriminate].
  apply shape_eqb_eq in E. intros H Ha. injection H as <-. simpl.
  rewrite E.
  set (pairs := combine _ _).
  assert (List.length (filter (fun pt : nat * Z =>
                                 (Z.of_nat (fst pt) =? snd pt)%Z) pairs)
          <= numel pre)%nat; [|lia].
  etransitivity; [apply filter_length_le|].
  unfold pairs. rewrite length_combine, length_map, length_rows. lia.
Qed.

Lemma forward_consistent
    (m : SWAGExampleModel Vocabulary RegularizerApplicator TextFieldTensors)
    (b : batch TextFieldTensors Metadata) :
  consistent (accuracy m) ->
  consistent (accuracy (snd (forward_batch mask m b))).
Proof.
  intros Hm. unfold forward_batch, forward.
  destruct (forward_logits _ _ _ _ _ _ _); [|exact Hm].
  destruct (batch_label b) as [label|]; [|exact Hm].
  destruct (CrossEntropyLoss _ _); [|exact Hm].
  destruct (Metrics.call _ _ _) eqn:E; [|exact Hm].
  simpl. eapply call_consistent; eauto.
Qed.

Lemma forward_each_consistent
    (batches : list (batch TextFieldTensors Metadata))
    (m : SWAGExampleModel Vocabulary RegularizerApplicator TextFieldTensors) :
  consistent (accuracy m) ->
  consistent (accuracy (snd (forward_each mask m batches))).
Proof.
  revert m. induction batches as [|b batches IH]; intros m Hm; simpl.
  - exact Hm.
  - pose proof (forward_consistent m b Hm) as H1.
    destruct (forward_batch mask m b) as [out m1]. simpl in H1.
    specialize (IH m1 H1).
    destruct (forward_each mask m1 batches) as [outs m2]. exact IH.
Qed.

Lemma init_ok
    (vocab : Vocabulary)
    (text_field_embedder : TextFieldEmbedder TextFieldTensors)
    (startphrase_encoder ending_encoder : Seq2VecEncoder)
    (similarity : SimilarityFunction)
    (initializer : InitializerApplicator TextFieldTensors)
    (regularizer : option RegularizerApplicator)
    (m : SWAGExampleModel Vocabulary RegularizerApplicator TextFieldTensors) :
  __init__ vocab text_field_embedder startphrase_encoder ending_encoder
           similarity initializer regularizer = Ok m ->
  dimensions_match m /\ accuracy m = Metrics.fresh.
Proof.
  unfold __init__, dimensions_match.
  destruct (ModelsSpec.check_dimensions_match_cases
              (embedder_output_dim text_field_embedder)
              (get_input_dim startphrase_encoder)
              "text field embedding dim" "startphrase encoder input dim")
    as [[E1 ->]|[_ ->]]; cbn [bind]; [|discriminate].
  destruct (ModelsSpec.check_dimensions_match_cases
              (embedder_output_dim text_field_embedder)
              (get_input_dim ending_encoder)
              "text field embedding dim" "ending encoder input dim")
    as [[E2 ->]|[_ ->]]; cbn [bind]; [|discriminate].
  destruct (ModelsSpec.check_dimensions_match_cases
              (get_output_dim startphrase_encoder)
              (get_output_dim ending_encoder)
              "startphrase embedding dim" "ending embedding dim")
    as [[E3 ->]|[_ ->]]; cbn [bind]; [|discriminate].
  intros H. injection H as <-. simpl. auto.
Qed.

(** X11: after the construction of the model and any sequence of calls of
    [forward], the accuracy has counted no more correct examples than
    examples.  Once it has counted an example, [get_metrics] reports a
    value between zero and one (over the reals), the same with and
    without the guard of the division, and leaves the same model.
    While it has counted nothing, its two counts are zero, and
    [get_metrics] over the unguarded division raises
    [ZeroDivisionError] and leaves the model as it is. *)
Theorem reported_accuracy_is_a_fraction
    (vocab : Vocabulary)
    (text_field_embedder : TextFieldEmbedder TextFieldTensors)
    (startphrase_encoder ending_encoder : Seq2VecEncoder)
    (similarity : SimilarityFunction)
    (initializer : InitializerApplicator TextFieldTensors)
    (regularizer : option RegularizerApplicator)
    (m : SWAGExampleModel Vocabulary RegularizerApplicator TextFieldTensors)
    (batches : list (batch TextFieldTensors Metadata)) (reset : bool) :
  __init__ vocab text_field_embedder startphrase_encoder ending_encoder
           similarity initializer regularizer = Ok m ->
  let self' := snd (forward_each mask m batches) in
  consistent (accuracy self')
  /\ ((0 < Metrics.total_count (accuracy self'))%nat ->
      exists value,
        fst (get_metrics self' reset) = [("accuracy", value)]
        /\ get_metrics_unguarded self' reset
           = (Ok [("accuracy", value)], snd (get_metrics self' reset))
        /\ (0 <= value <= 1)%R)
  /\ (Metrics.total_count (accuracy self') = 0%nat ->
      accuracy self' = Metrics.fresh
      /\ get_metrics_unguarded self' reset
         = (Raise ZeroDivisionError, self')).
Proof.
  intros Hinit self'. apply init_ok in Hinit. destruct Hinit as [_ Hfresh].
  assert (Hc : consistent (accuracy self')).
  { apply forward_each_consistent. rewrite Hfresh. unfold consistent.
    simpl. lia. }
  split; [exact Hc|].
  unfold get_metrics, get_metrics_unguarded, Metrics.get_metric,
    Metrics.get_metric_unguarded.
  set (a := accuracy self') in *. unfold consistent in Hc.
  split.
  - intros E. pose proof E as E'. apply Nat.ltb_lt in E'. rewrite E'.
    eexists. split; [reflexivity|]. split; [reflexivity|].
    assert (Ht : (0 < INR (Metrics.total_count a))%R) by now apply lt_0_INR.
    assert (Hle : (INR (Metrics.correct_count a)
                   <= INR (Metrics.total_count a))%R) by now apply le_INR.
    pose proof (pos_INR (Metrics.correct_count a)) as Hpos.
    split.
    + apply Rmult_le_pos; [exact Hpos|].
      apply Rlt_le, Rinv_0_lt_compat, Ht.
    + apply Rmult_le_reg_r with (r := INR (Metrics.total_count a));
        [exact Ht|].
      unfold Rdiv. rewrite Rmult_assoc, Rinv_l by lra. lra.
  - intros E. rewrite E. cbn [Nat.ltb Nat.leb].
    split.
    + destruct a as [c t]. cbn in *. subst t.
      assert (c = 0%nat) by lia. now subst c.
    + unfold a. now rewrite ModelsSpec.set_accuracy_same.
Qed.

(** X12: the dimensions that the construction has checked still match after
    any sequence of calls of [forward]: no call replaces a sub-module. *)
Theorem constructed_models_keep_dimensions
    (vocab : Vocabulary)
    (text_field_embedder : TextFieldEmbedder TextFieldTensors)
    (startphrase_encoder ending_encoder : Seq2VecEncoder)
    (similarity : SimilarityFunction)
    (initializer : InitializerApplicator TextFieldTensors)
    (regularizer : option RegularizerApplicator)
    (m : SWAGExampleModel Vocabulary RegularizerApplicator TextFieldTensors)
    (batches : list (batch TextFieldTensors Metadata)) :
  __init__ vocab text_field_embedder startphrase_encoder ending_encoder
           similarity initializer regularizer = Ok m ->
  dimensions_match m
  /\ dimensions_match (snd (forward_each mask m batches)).
Proof.
  intros Hinit. apply init_ok in Hinit. destruct Hinit as [Hdims _].
  split; [exact Hdims|].
  destruct (ModelsSpec.forward_each_frame mask batches m)
    as (dc & dt & H & _).
  specialize (H (accuracy m)).
  rewrite ModelsSpec.set_accuracy_same in H. rewrite H. exact Hdims.
Qed.

(** X13: when the construction has accepted the sub-modules and each encoder
    returns, for the [B] sequences of each field, [B] vectors of the
    output dimension it declares, [forward] without labels returns: the
    check of the construction is what makes the matrix product fit. *)
Theorem constructed_model_scores_every_batch
    (vocab : Vocabulary)
    (text_field_embedder : TextFieldEmbedder TextFieldTensors)
    (startphrase_encoder ending_encoder : Seq2VecEncoder)
    (similarity : SimilarityFunction)
    (initializer : InitializerApplicator TextFieldTensors)
    (regularizer : option RegularizerApplicator)
    (m : SWAGExampleModel Vocabulary RegularizerApplicator TextFieldTensors)
    (B : nat)
    (startphrase ending0 ending1 ending2 ending3 : TextFieldTensors)
    (metadata : option Metadata) :
  __init__ vocab text_field_embedder startphrase_encoder ending_encoder
           similarity initializer regularizer = Ok m ->
  is_batch B (get_output_dim (Models.startphrase_encoder m))
           (encoded_startphrase mask m startphrase) ->
  Forall (fun ending =>
            is_batch B (get_output_dim (Models.ending_encoder m))
                     (encoded_ending mask m ending))
         [ending0; ending1; ending2; ending3] ->
  exists logits probabilities,
    forward mask m startphrase ending0 ending1 ending2 ending3 None metadata
    = (Ok [("logits", OutTensor logits);
           ("probabilities", OutTensor probabilities);
           ("loss", OutNone)],
       m)
    /\ shape logits = logits_shape B
    /\ shape probabilities = logits_shape B.
Proof.
  intros Hinit Hs He. apply init_ok in Hinit.
  destruct Hinit as [(_ & _ & Hout) _].
  assert (Hbatch : encodes_batch mask m B
                     (get_output_dim (Models.startphrase_encoder m))
                     startphrase ending0 ending1 ending2 ending3).
  { rewrite Hout in Hs |- *.
    inversion He as [|? ? H0 He1]; subst.
    inversion He1 as [|? ? H1 He2]; subst.
    inversion He2 as [|? ? H2 He3]; subst.
    inversion He3 as [|? ? H3 _]; subst.
    repeat split; first [apply Hs|apply H0|apply H1|apply H2|apply H3]. }
  do 2 eexists. split.
  - apply (ModelsSpec.forward_unlabelled Hbatch).
  - split; reflexivity.
Qed.

(** *** Batches that the encoders return as [B x D] tensors *)

Section Batch.
Variable self : SWAGExampleModel Vocabulary RegularizerApplicator
                                 TextFieldTensors.
Variables (B D : nat).
Variables (startphrase ending0 ending1 ending2 ending3 : TextFieldTensors).
Hypothesis Hbatch :
  encodes_batch mask self B D startphrase ending0 ending1 ending2 ending3.

Let scores : list R :=
  dot_products B D (encoded_startphrase mask self startphrase)
    (encoded_ending mask self ending0) (encoded_ending mask self ending1)
    (encoded_ending mask self ending2) (encoded_ending mask self ending3).

Lemma nth_scores (b i : nat) :
  (i < 4)%nat -> nth (b * 4 + i) scores 0%R = nth i (row 4 scores b) 0%R.
Proof. intros Hi. symmetry. now apply nth_row. Qed.

Lemma nth_probabilities (b i : nat) :
  (b < B)%nat -> (i < 4)%nat ->
  nth (b * 4 + i) (flat_map softmax_vec (rows 4 B scores)) 0%R
  = nth i (softmax_vec (row 4 scores b)) 0%R.
Proof.
  intros Hb Hi. rewrite <- (@nth_row R 4 _ b i 0%R Hi).
  now rewrite row_softmax_rows by (apply length_dot_products || assumption).
Qed.

Lemma length_row_scores (b : nat) :
  (b < B)%nat -> List.length (row 4 scores b) = 4%nat.
Proof.
  intros Hb. unfold scores. now rewrite row_dot_products.
Qed.

(** X14: for a batch of any size but one, the logits and the probabilities
    have the shape [B x 4], the probabilities of each example sum to one,
    and no loss is returned without labels. *)
Theorem batch_shapes_and_probabilities (metadata : option Metadata) :
  B <> 1%nat ->
  exists logits probabilities,
    forward mask self startphrase ending0 ending1 ending2 ending3
            None metadata
    = (Ok [("logits", OutTensor logits);
           ("probabilities", OutTensor probabilities);
           ("loss", OutNone)],
       self)
    /\ shape logits = [B; 4%nat]
    /\ shape probabilities = [B; 4%nat]
    /\ List.length (data logits) = (B * 4)%nat
    /\ forall b, (b < B)%nat ->
                 sum (row 4 (data probabilities) b) = 1%R.
Proof.
  intros HB. apply Nat.eqb_neq in HB.
  do 2 eexists. split; [apply (ModelsSpec.forward_unlabelled Hbatch)|].
  cbn [shape data]. unfold logits_shape. rewrite HB.
  repeat split.
  - apply length_dot_products.
  - intros b Hb. now apply probabilities_sum_to_one.
Qed.

(** X15: over the reals, where no exponential is rounded to zero, every
    probability is positive and at most one, and the probabilities of an
    example are in the order of its logits: the ending with the greatest
    dot product has the greatest probability. *)
Theorem probabilities_follow_logits (metadata : option Metadata) :
  exists logits probabilities,
    forward mask self startphrase ending0 ending1 ending2 ending3
            None metadata
    = (Ok [("logits", OutTensor logits);
           ("probabilities", OutTensor probabilities);
           ("loss", OutNone)],
       self)
    /\ forall b i j, (b < B)%nat -> (i < 4)%nat -> (j < 4)%nat ->
          (0 < nth (b * 4 + i) (data probabilities) 0 <= 1)%R
          /\ (nth (b * 4 + i) (data probabilities) 0
               <= nth (b * 4 + j) (data probabilities) 0
              <-> nth (b * 4 + i) (data logits) 0
                  <= nth (b * 4 + j) (data logits) 0)%R.
Proof.
  do 2 eexists. split; [apply (ModelsSpec.forward_unlabelled Hbatch)|].
  cbn [data]. intros b i j Hb Hi Hj. fold scores.
  rewrite !nth_probabilities, !nth_scores by assumption.
  pose proof (length_row_scores Hb) as L.
  split.
  - apply softmax_vec_nth. lia.
  - apply softmax_vec_order; lia.
Qed.

(** X16: exchanging two endings exchanges their logits and changes nothing
    else: the score of an ending does not depend on its position. *)
Theorem swapped_endings_swap_logits :
  exists logits swapped,
    forward_logits mask self startphrase ending0 ending1 ending2 ending3
    = Ok logits
    /\ forward_logits mask self startphrase ending1 ending0 ending2 ending3
       = Ok swapped
    /\ shape swapped = shape logits
    /\ forall b, (b < B)%nat ->
         exists s0 s1 s2 s3,
           row 4 (data logits) b = [s0; s1; s2; s3]
           /\ row 4 (data swapped) b = [s1; s0; s2; s3].
Proof.
  assert (Hswap : encodes_batch mask self B D startphrase ending1 ending0
                                ending2 ending3).
  { destruct Hbatch as (Hs & H0 & H1 & H2 & H3). repeat split;
      first [apply Hs|apply H0|apply H1|apply H2|apply H3]. }
  do 2 eexists.
  split; [apply (ModelsSpec.forward_logits_eq Hbatch)|].
  split; [apply (ModelsSpec.forward_logits_eq Hswap)|].
  split; [reflexivity|].
  intros b Hb. cbn [data]. do 4 eexists.
  split; apply row_dot_products; exact Hb.
Qed.

(** X17: with [n] labels for a batch of [B <> n] examples, the cross entropy
    refuses them: [forward] raises and the model is as it was.  For the
    [B x 4] logits of a batch of more than one example the error is the
    [ValueError] of the batch size check; for the squeezed logits of a
    batch of one it is the [RuntimeError] of a tensor with no class
    dimension. *)
Theorem wrong_number_of_labels_raises
    (label : LongTensor) (n : nat) (metadata : option Metadata) :
  shape label = [n] -> n <> B ->
  forward mask self startphrase ending0 ending1 ending2 ending3
          (Some label) metadata
  = (Raise (if (B =? 1)%nat then RuntimeError else ValueError), self).
Proof.
  intros Hshape Hn. unfold forward.
  rewrite (ModelsSpec.forward_logits_eq Hbatch). cbv zeta.
  unfold CrossEntropyLoss, view_m1, logits_shape. cbn [shape].
  rewrite Hshape. cbn [numel fold_right].
  destruct (B =? 1)%nat; [reflexivity|].
  rewrite Nat.mul_1_r.
  assert (E : (B =? n)%nat = false) by (apply Nat.eqb_neq; lia).
  now rewrite E.
Qed.

(** X18: with a label that is no class (negative or four or more, and not
    the index to ignore) among the [B] labels of a batch of [B <> 1]
    examples, the cross entropy fails: [forward] raises and the model is
    as it was. *)
Theorem label_out_of_range_raises
    (label : LongTensor) (t : Z) (metadata : option Metadata) :
  B <> 1%nat -> shape label = [B] ->
  In t (data label) -> t <> ignore_index -> (t < 0 \/ 4 <= t)%Z ->
  forward mask self startphrase ending0 ending1 ending2 ending3
          (Some label) metadata
  = (Raise IndexError, self).
Proof.
  intros HB Hshape Hin Hignore Hrange. unfold forward.
  rewrite (ModelsSpec.forward_logits_eq Hbatch). cbv zeta.
  unfold CrossEntropyLoss, view_m1, logits_shape. cbn [shape data].
  apply Nat.eqb_neq in HB. rewrite HB, Hshape. cbn [numel fold_right].
  rewrite Nat.mul_1_r, Nat.eqb_refl.
  assert (E : forallb (fun t0 => (t0 =? ignore_index)%Z
                         || ((0 <=? t0)%Z && (t0 <? Z.of_nat 4)%Z))
                (data label) = false).
  { apply not_true_is_false. intros Hall.
    rewrite forallb_forall in Hall. specialize (Hall t Hin).
    apply orb_true_iff in Hall. destruct Hall as [Hall|Hall].
    - apply Z.eqb_eq in Hall. contradiction.
    - apply andb_true_iff in Hall. destruct Hall as [H0 H4].
      apply Z.leb_le in H0. apply Z.ltb_lt in H4. lia. }
  now rewrite E.
Qed.

(** X19: with a label in [0, 4) for each of [B >= 2] examples, the loss that
    [forward] returns is what the cross entropy computes from the
    logits: the mean, over the examples, of the logarithm of the sum of
    the exponentials of the four logits less the logit of the gold
    ending.  Over the reals, where nothing is rounded, this is the mean
    of minus the logarithm of the probability that [forward] returns for
    the gold ending, and it is not negative.  The accuracy has counted
    the [B] examples. *)
Theorem loss_is_mean_negative_log_probability
    (label : LongTensor) (metadata : option Metadata) :
  (2 <= B)%nat ->
  shape label = [B] -> List.length (data label) = B ->
  Forall (fun t => (0 <= t < 4)%Z) (data label) ->
  exists logits probabilities loss a,
    forward mask self startphrase ending0 ending1 ending2 ending3
            (Some label) metadata
    = (Ok [("logits", OutTensor logits);
           ("probabilities", OutTensor probabilities);
           ("loss", OutLoss (Num loss))],
       set_accuracy self a)
    /\ loss
       = (sum (map (fun b =>
                      ln (sum (map exp (row 4 (data logits) b)))
                      - nth (b * 4 + Z.to_nat (nth b (data label) 0%Z))
                            (data logits) 0)
                   (seq 0 B))
          / INR B)%R
    /\ loss
       = (sum (map (fun b =>
                      - ln (nth (b * 4 + Z.to_nat (nth b (data label) 0%Z))
                                (data probabilities) 0))
                   (seq 0 B))
          / INR B)%R
    /\ (0 <= loss)%R
    /\ Metrics.total_count a = (Metrics.total_count (accuracy self) + B)%nat.
Proof.
  intros HB Hshape Hlen Hvalid.
  destruct (ModelsSpec.forward_labelled (Metadata := Metadata) Hbatch
              label metadata HB Hshape Hlen Hvalid)
    as (loss & a & Hfw & Hpos & Hmean & Htotal & _).
  assert (Ht : forall b, (b < B)%nat ->
                         (0 <= nth b (data label) 0 < 4)%Z).
  { intros b Hb. rewrite Forall_forall in Hvalid.
    apply Hvalid, nth_In. lia. }
  do 2 eexists. exists loss, a.
  split; [exact Hfw|].
  split; [|split; [|split; [exact Hpos|exact Htotal]]].
  - rewrite Hmean. cbn [data]. f_equal. f_equal. fold scores.
    unfold rows. rewrite combine_map_seq by exact Hlen.
    rewrite map_map. apply map_ext_in. intros b Hb. apply in_seq in Hb.
    assert (Hb' : (b < B)%nat) by lia. specialize (Ht b Hb').
    cbn [fst snd]. unfold nll, log_softmax_vec. cbv zeta.
    pose proof (length_row_scores Hb') as L.
    rewrite (nth_map_in _ (row 4 scores b) 0%R 0%R) by lia.
    rewrite nth_scores by lia. ring.
  - rewrite Hmean. cbn [data]. f_equal. f_equal. fold scores.
    unfold rows. rewrite combine_map_seq by exact Hlen.
    rewrite map_map. apply map_ext_in. intros b Hb. apply in_seq in Hb.
    assert (Hb' : (b < B)%nat) by lia. specialize (Ht b Hb').
    cbn [fst snd].
    pose proof (length_row_scores Hb') as L.
    rewrite TorchFacts.nll_softmax by (rewrite L; lia).
    rewrite nth_probabilities by lia. reflexivity.
Qed.

End Batch.

End Model.
End ModelsMore.

(** ** Construction from configuration *)

Module ParamsFacts.
Import Params.

Lemma get_remove_other (k k' : string) (p : params) :
  k <> k' ->
  dict_get String.eqb k (remove k' p) = dict_get String.eqb k p.
Proof.
  intros Hk. unfold remove. induction p as [|[k2 v] p IH]; simpl.
  - reflexivity.
  - destruct (String.eqb k' k2) eqn:E; simpl.
    + apply String.eqb_eq in E. subst k2.
      apply String.eqb_neq in Hk. now rewrite Hk.
    + now rewrite IH.
Qed.

Lemma pop_other (k k' : string) (default : config) (p : params) :
  k <> k' ->
  fst (pop k default (remove k' p)) = fst (pop k default p).
Proof.
  intros Hk. unfold pop. simpl. now rewrite get_remove_other.
Qed.

Lemma filter_nil_forallb (A : Type) (f : A -> bool) (l : list A) :
  forallb f l = true -> filter (fun x => negb (f x)) l = [].
Proof.
  induction l as [|x l IH]; simpl; [reflexivity|].
  intros H. apply andb_true_iff in H. destruct H as [-> Hl]. simpl. auto.
Qed.

Lemma filter_not_nil_forallb (A : Type) (f : A -> bool) (l : list A) :
  forallb f l = false -> filter (fun x => negb (f x)) l <> [].
Proof.
  induction l as [|x l IH]; simpl; [discriminate|].
  destruct (f x); simpl; [exact IH|discriminate].
Qed.

Lemma pop_cons_other (n k : string) (v default : config) (q : params) :
  String.eqb n k = false ->
  pop n default ((k, v) :: q)
  = (fst (pop n default q), (k, v) :: snd (pop n default q)).
Proof.
  intros E. unfold pop, remove. cbn [dict_get filter fst snd].
  now rewrite E.
Qed.

Lemma pop_required_cons_other (n k : string) (v : config) (q : params) :
  String.eqb n k = false ->
  pop_required n ((k, v) :: q)
  = (fst (pop_required n q), (k, v) :: snd (pop_required n q)).
Proof.
  intros E. unfold pop_required, remove. cbn [dict_get filter fst].
  rewrite E. cbn [negb]. now destruct (dict_get String.eqb n q).
Qed.

Lemma forallb_keys (A C : Type) (f : A -> bool) (l : list (A * C)) :
  forallb f (map fst l) = forallb (fun kv => f (fst kv)) l.
Proof.
  induction l as [|x l IH]; simpl; [reflexivity|]. now rewrite IH.
Qed.

End ParamsFacts.

Module ReadersParamsSpec.
Import Params ParamsFacts ReadersParams.

Section Reader.
Variables (Token TokenIndexer : Type).
Variable WordTokenizer : Readers.Tokenizer Token.
Variable SingleIdTokenIndexer : TokenIndexer.
Variable Tokenizer_from_params : config -> result (Readers.Tokenizer Token).
Variable TokenIndexer_dict_from_params :
  config -> result (dict string TokenIndexer).

(** What is left of the [Params] object after the three keys are
    popped. *)
Lemma remove_known_keys (p : params) :
  remove "token_indexers" (remove "tokenizer" (remove "lazy" p))
  = filter (fun kv => negb (known_key (fst kv))) p.
Proof.
  unfold remove, known_key. induction p as [|[k v] p IH]; [reflexivity|].
  cbn [filter fst].
  rewrite (String.eqb_sym k "lazy"), (String.eqb_sym k "tokenizer"),
    (String.eqb_sym k "token_indexers").
  destruct (String.eqb "lazy" k) eqn:E1; cbn [negb orb filter fst];
    [exact IH|].
  destruct (String.eqb "tokenizer" k) eqn:E2; cbn [negb orb filter fst];
    [exact IH|].
  destruct (String.eqb "token_indexers" k) eqn:E3; cbn [negb orb filter fst];
    [exact IH|].
  now rewrite IH.
Qed.

(** X7: when the tokenizer and the token indexers can be built from their
    configurations, [from_params] returns a reader exactly when the
    configuration has no key besides [lazy], [tokenizer] and
    [token_indexers], each of which may be missing; it then leaves the
    [Params] object empty.  With any other key it raises a configuration
    error and leaves the unknown keys in the object. *)
Theorem reader_from_params_rejects_unknown_keys
    (p : params) (tokenizer : Readers.Tokenizer Token)
    (indexers : dict string TokenIndexer) :
  Tokenizer_from_params (fst (pop "tokenizer" (CDict []) p)) = Ok tokenizer ->
  TokenIndexer_dict_from_params (fst (pop "token_indexers" (CDict []) p))
  = Ok indexers ->
  from_params WordTokenizer SingleIdTokenIndexer Tokenizer_from_params
              TokenIndexer_dict_from_params p
  = if forallb known_key (dict_keys p)
    then (Ok (construct WordTokenizer SingleIdTokenIndexer
                (truthy (fst (pop "lazy" (CBool false) p)))
                (Some tokenizer) (Some indexers)),
          [])
    else (Raise (ConfigurationError
                   "Extra parameters passed to SWAGDatasetReader"),
          filter (fun kv => negb (known_key (fst kv))) p).
Proof.
  intros Ht Hi. unfold from_params.
  change (pop "lazy" (CBool false) p)
    with (fst (pop "lazy" (CBool false) p), remove "lazy" p).
  cbv iota beta.
  change (pop "tokenizer" (CDict []) (remove "lazy" p))
    with (fst (pop "tokenizer" (CDict []) (remove "lazy" p)),
          remove "tokenizer" (remove "lazy" p)).
  cbv iota beta.
  rewrite pop_other by discriminate. rewrite Ht.
  change (pop "token_indexers" (CDict [])
            (remove "tokenizer" (remove "lazy" p)))
    with (fst (pop "token_indexers" (CDict [])
                 (remove "tokenizer" (remove "lazy" p))),
          remove "token_indexers" (remove "tokenizer" (remove "lazy" p))).
  cbv iota beta.
  rewrite !pop_other by discriminate. rewrite Hi.
  rewrite remove_known_keys. unfold dict_keys. rewrite forallb_keys.
  destruct (forallb (fun kv => known_key (fst kv)) p) eqn:E.
  - rewrite (filter_nil_forallb (fun kv : string * config => known_key (fst kv)) p E).
    reflexivity.
  - pose proof (filter_not_nil_forallb
                  (fun kv : string * config => known_key (fst kv)) p E) as Hne.
    destruct (filter _ p); [congruence|reflexivity].
Qed.

(** X8: a reader that [from_params] returns has at least one token indexer:
    an empty dictionary of indexers gives way to the default one. *)
Theorem reader_from_params_has_token_indexers
    (p p' : params) (r : Reader Token TokenIndexer) :
  from_params WordTokenizer SingleIdTokenIndexer Tokenizer_from_params
              TokenIndexer_dict_from_params p = (Ok r, p') ->
  Readers.token_indexers r <> []
  /\ (TokenIndexer_dict_from_params
        (fst (pop "token_indexers" (CDict []) p)) = Ok [] ->
      Readers.token_indexers r = [("tokens", SingleIdTokenIndexer)])
  /\ (forall indexers,
        TokenIndexer_dict_from_params
          (fst (pop "token_indexers" (CDict []) p)) = Ok indexers ->
        indexers <> [] -> Readers.token_indexers r = indexers).
Proof.
  unfold from_params.
  change (pop "lazy" (CBool false) p)
    with (fst (pop "lazy" (CBool false) p), remove "lazy" p).
  cbv iota beta.
  change (pop "tokenizer" (CDict []) (remove "lazy" p))
    with (fst (pop "tokenizer" (CDict []) (remove "lazy" p)),
          remove "tokenizer" (remove "lazy" p)).
  cbv iota beta.
  destruct (Tokenizer_from_params _) as [tokenizer|]; [|discriminate].
  change (pop "token_indexers" (CDict [])
            (remove "tokenizer" (remove "lazy" p)))
    with (fst (pop "token_indexers" (CDict [])
                 (remove "tokenizer" (remove "lazy" p))),
          remove "token_indexers" (remove "tokenizer" (remove "lazy" p))).
  cbv iota beta.
  rewrite !pop_other by discriminate.
  destruct (TokenIndexer_dict_from_params _) as [indexers|]; [|discriminate].
  destruct (assert_empty _ _); [|discriminate].
  intros H. injection H as <- _.
  unfold construct, Readers.__init__.
  destruct indexers as [|ix indexers]; cbn [Readers.token_indexers];
    (split; [discriminate|split]).
  - reflexivity.
  - intros ix H Hne. injection H as <-. congruence.
  - intros H. discriminate H.
  - intros ix' H _. now injection H as <-.
Qed.

End Reader.
End ReadersParamsSpec.

Module ModelsParamsSpec.
Import Params ParamsFacts Torch Models ModelsAux ModelsParams.

Section Model.
Variables (Vocabulary RegularizerApplicator TextFieldTensors : Type).
Variable TextFieldEmbedder_from_params :
  Vocabulary -> config -> result (TextFieldEmbedder TextFieldTensors).
Variable Seq2VecEncoder_from_params : config -> result Seq2VecEncoder.
Variable SimilarityFunction_from_params : config -> result SimilarityFunction.
Variable InitializerApplicator_from_params :
  config -> result (InitializerApplicator TextFieldTensors).
Variable RegularizerApplicator_from_params :
  config -> result (option RegularizerApplicator).

Let from_params :=
  from_params TextFieldEmbedder_from_params Seq2VecEncoder_from_params
              SimilarityFunction_from_params
              InitializerApplicator_from_params
              RegularizerApplicator_from_params.

Ltac raised := cbv iota beta; cbn [fst]; eexists; reflexivity.

Ltac pop_step :=
  rewrite ?get_remove_other by discriminate;
  match goal with
  | H : dict_get String.eqb ?k ?p = None
    |- context [dict_get String.eqb ?k ?p] => rewrite H; raised
  | |- context [match dict_get String.eqb ?k ?p with _ => _ end] =>
      destruct (dict_get String.eqb k p); [cbv iota beta|raised]
  end.

Ltac build_step :=
  match goal with
  | |- context [match ?c with Ok _ => _ | Raise _ => _ end] =>
      destruct c; [cbv iota beta|raised]
  end.

(** X20: a configuration that lacks one of [text_field_embedder],
    [startphrase_encoder], [ending_encoder] and [similarity] gives no
    model: [from_params] raises. *)
Theorem model_from_params_requires_keys
    (vocab : Vocabulary) (p : params) (k : string) :
  In k required_keys ->
  dict_get String.eqb k p = None ->
  exists e, fst (from_params vocab p) = Raise e.
Proof.
  intros Hk Hnone. unfold from_params, ModelsParams.from_params, pop_required.
  simpl in Hk. destruct Hk as [<-|[<-|[<-|[<-|[]]]]].
  - pop_step.
  - pop_step. build_step. pop_step.
  - pop_step. build_step. pop_step. build_step. pop_step.
  - pop_step. build_step. pop_step. build_step. pop_step. build_step.
    pop_step.
Qed.

Ltac required_step E :=
  rewrite pop_required_cons_other by exact E;
  match goal with
  | |- context [pop_required ?n ?q] =>
      destruct (pop_required n q) as [[? | ?] ?]; cbn [fst snd];
      [|reflexivity]
  end.

Ltac optional_step E :=
  rewrite pop_cons_other by exact E;
  match goal with
  | |- context [pop ?n ?d ?q] =>
      destruct (pop n d q) as [? ?]; cbn [fst snd]
  end.

Ltac same_build :=
  match goal with
  | |- context [match ?c with Ok _ => _ | Raise _ => _ end] =>
      destruct c; [|reflexivity]
  end.

(** X21: [from_params] reads six keys and checks nothing else: a key with
    another name changes neither the model nor the exception, and is
    still in the [Params] object afterwards. *)
Theorem model_from_params_ignores_other_keys
    (vocab : Vocabulary) (p : params) (k : string) (v : config) :
  ~ In k read_keys ->
  from_params vocab ((k, v) :: p)
  = (fst (from_params vocab p), (k, v) :: snd (from_params vocab p)).
Proof.
  intros Hk.
  assert (E : forall n, In n read_keys -> String.eqb n k = false).
  { intros n Hn. apply String.eqb_neq. intros ->. contradiction. }
  assert (E1 := E "text_field_embedder" ltac:(simpl; tauto)).
  assert (E2 := E "startphrase_encoder" ltac:(simpl; tauto)).
  assert (E3 := E "ending_encoder" ltac:(simpl; tauto)).
  assert (E4 := E "similarity" ltac:(simpl; tauto)).
  assert (E5 := E "initializer" ltac:(simpl; tauto)).
  assert (E6 := E "regularizer" ltac:(simpl; tauto)).
  clear E Hk. unfold from_params, ModelsParams.from_params.
  required_step E1. same_build.
  required_step E2. same_build.
  required_step E3. same_build.
  required_step E4. same_build.
  optional_step E5. same_build.
  optional_step E6. same_build.
  reflexivity.
Qed.

Ltac found G :=
  rewrite ?get_remove_other by discriminate;
  match goal with
  | |- context [match dict_get String.eqb ?k ?p with _ => _ end] =>
      destruct (dict_get String.eqb k p) eqn:G;
      [cbv iota beta|intros H; discriminate H]
  end.

Ltac built :=
  match goal with
  | |- context [match ?c with Ok _ => _ | Raise _ => _ end] =>
      destruct c; [cbv iota beta|intros H; discriminate H]
  end.

(** X22: a model that [from_params] returns was configured with the four
    required keys, satisfies the dimension invariant, and starts with an
    accuracy that has counted nothing. *)
Theorem model_from_params_matches_dimensions
    (vocab : Vocabulary) (p p' : params)
    (m : SWAGExampleModel Vocabulary RegularizerApplicator TextFieldTensors) :
  from_params vocab p = (Ok m, p') ->
  Forall (fun k => dict_get String.eqb k p <> None) required_keys
  /\ dimensions_match m
  /\ accuracy m = Metrics.fresh.
Proof.
  unfold from_params, ModelsParams.from_params, pop_required, pop.
  found G1. built. found G2. built. found G3. built. found G4. built.
  built. built.
  intros H. injection H as H _. apply ModelsMore.init_ok in H.
  split; [|exact H].
  repeat constructor; congruence.
Qed.

End Model.
End ModelsParamsSpec.

Module MoreExamples.
Import Params Torch Models ModelsAux Fixtures MoreFixtures.

Lemma reader_from_params_rejects_unknown_keys_witness :
  reader_from_params [("lazy", CBool true); ("colour", CStr "red")]
  = (Raise (ConfigurationError
              "Extra parameters passed to SWAGDatasetReader"),
     [("colour", CStr "red")])
  /\ reader_from_params [("lazy", CBool true)]
     = (Ok (ReadersParams.construct split_at_spaces tt true
              (Some split_at_spaces) (Some [])),
        []).
Proof.
  split.
  - exact (ReadersParamsSpec.reader_from_params_rejects_unknown_keys
             split_at_spaces tt tokenizer_of indexers_of
             [("lazy", CBool true); ("colour", CStr "red")]
             (tokenizer := split_at_spaces) (indexers := [])
             eq_refl eq_refl).
  - exact (ReadersParamsSpec.reader_from_params_rejects_unknown_keys
             split_at_spaces tt tokenizer_of indexers_of
             [("lazy", CBool true)]
             (tokenizer := split_at_spaces) (indexers := [])
             eq_refl eq_refl).
Defined.

Lemma reader_from_params_has_token_indexers_witness :
  exists r,
    reader_from_params [("token_indexers", CDict [])] = (Ok r, [])
    /\ Readers.token_indexers r <> []
    /\ Readers.token_indexers r = [("tokens", tt)].
Proof.
  eexists. split; [reflexivity|].
  destruct (ReadersParamsSpec.reader_from_params_has_token_indexers
              split_at_spaces tt tokenizer_of indexers_of
              [("token_indexers", CDict [])] eq_refl)
    as (H1 & H2 & _).
  split; [exact H1|]. apply H2. reflexivity.
Defined.

Lemma model_from_params_requires_keys_witness :
  exists e,
    fst (model_from_params
           [("text_field_embedder", CDict []);
            ("startphrase_encoder", CStr "bag_of_embeddings");
            ("ending_encoder", CStr "bag_of_embeddings")])
    = Raise e.
Proof.
  apply (ModelsParamsSpec.model_from_params_requires_keys
           embedder_of encoder_of similarity_of initializer_of
           regularizer_of tt _ (k := "similarity")).
  - simpl. tauto.
  - reflexivity.
Defined.

Lemma model_from_params_ignores_other_keys_witness :
  model_from_params (("colour", CStr "red") :: model_params)
  = (Ok model, [("colour", CStr "red")]).
Proof.
  apply (ModelsParamsSpec.model_from_params_ignores_other_keys
           embedder_of encoder_of similarity_of initializer_of
           regularizer_of tt model_params (k := "colour") (CStr "red")).
  simpl. intros [H|[H|[H|[H|[H|[H|[]]]]]]]; discriminate H.
Defined.

Lemma model_from_params_matches_dimensions_witness :
  dimensions_match model /\ accuracy model = Metrics.fresh.
Proof.
  destruct (ModelsParamsSpec.model_from_params_matches_dimensions
              embedder_of encoder_of similarity_of initializer_of
              regularizer_of tt model_params (p' := []) (m := model)
              eq_refl)
    as (_ & H).
  exact H.
Defined.

Lemma reported_accuracy_is_a_fraction_witness :
  (exists value,
      get_metrics_unguarded
        (snd (forward_each token_mask model [labelled_two])) false
      = (Ok [("accuracy", value)],
         snd (forward_each token_mask model [labelled_two]))
      /\ (0 <= value <= 1)%R)
  /\ get_metrics_unguarded
       (snd (forward_each token_mask model (@nil (batch _ unit)))) true
     = (Raise ZeroDivisionError, model).
Proof.
  split.
  - destruct (ModelsMore.reported_accuracy_is_a_fraction token_mask
                tt index_embedder bag_of_embeddings bag_of_embeddings
                first_argument keep_weights (None : option unit)
                (m := model) [labelled_two] false eq_refl)
      as (_ & H & _).
    destruct H as (value & _ & H1 & H2).
    + cbn. lia.
    + exists value. split; [exact H1|exact H2].
  - destruct (ModelsMore.reported_accuracy_is_a_fraction token_mask
                tt index_embedder bag_of_embeddings bag_of_embeddings
                first_argument keep_weights (None : option unit)
                (m := model) (@nil (batch _ unit)) true eq_refl)
      as (_ & _ & H).
    destruct (H eq_refl) as [_ H']. exact H'.
Defined.

Lemma constructed_models_keep_dimensions_witness :
  dimensions_match (snd (forward_each token_mask model [labelled_two])).
Proof.
  destruct (ModelsMore.constructed_models_keep_dimensions token_mask
              tt index_embedder bag_of_embeddings bag_of_embeddings
              first_argument keep_weights (None : option unit)
              (m := model) [labelled_two] eq_refl)
    as (_ & H).
  exact H.
Defined.

Lemma constructed_model_scores_every_batch_witness :
  exists logits probabilities,
    forward_two None
    = (Ok [("logits", OutTensor logits);
           ("probabilities", OutTensor probabilities);
           ("loss", OutNone)],
       model)
    /\ shape logits = [2%nat; 4%nat]
    /\ shape probabilities = [2%nat; 4%nat].
Proof.
  apply (ModelsMore.constructed_model_scores_every_batch (Metadata := unit)
           token_mask tt index_embedder bag_of_embeddings bag_of_embeddings
           first_argument keep_weights (None : option unit) (m := model)
           (B := 2) (two 1 2 2 1) (ending0 := two 3 4 1 1)
           (ending1 := two 5 6 2 2) (ending2 := two 7 8 3 3)
           (ending3 := two 1 1 4 4) None).
  - reflexivity.
  - split; reflexivity.
  - repeat constructor.
Defined.

Lemma batch_shapes_and_probabilities_witness :
  exists logits probabilities,
    forward_two None
    = (Ok [("logits", OutTensor logits);
           ("probabilities", OutTensor probabilities);
           ("loss", OutNone)],
       model)
    /\ shape logits = [2%nat; 4%nat]
    /\ shape probabilities = [2%nat; 4%nat]
    /\ List.length (data logits) = 8%nat
    /\ forall b, (b < 2)%nat -> sum (row 4 (data probabilities) b) = 1%R.
Proof.
  apply (ModelsMore.batch_shapes_and_probabilities (Metadata := unit)
           ModelsExamples.two_encodes_batch None).
  discriminate.
Defined.

Lemma probabilities_follow_logits_witness :
  exists logits probabilities,
    forward_two None
    = (Ok [("logits", OutTensor logits);
           ("probabilities", OutTensor probabilities);
           ("loss", OutNone)],
       model)
    /\ forall b i j, (b < 2)%nat -> (i < 4)%nat -> (j < 4)%nat ->
         (0 < nth (b * 4 + i) (data probabilities) 0 <= 1)%R
         /\ (nth (b * 4 + i) (data probabilities) 0
              <= nth (b * 4 + j) (data probabilities) 0
             <-> nth (b * 4 + i) (data logits) 0
                 <= nth (b * 4 + j) (data logits) 0)%R.
Proof.
  apply (ModelsMore.probabilities_follow_logits (Metadata := unit)
           ModelsExamples.two_encodes_batch None).
Defined.

Lemma swapped_endings_swap_logits_witness :
  exists logits swapped,
    forward_logits token_mask model
      (two 1 2 2 1) (two 3 4 1 1) (two 5 6 2 2) (two 7 8 3 3) (two 1 1 4 4)
    = Ok logits
    /\ forward_logits token_mask model
         (two 1 2 2 1) (two 5 6 2 2) (two 3 4 1 1) (two 7 8 3 3)
         (two 1 1 4 4)
       = Ok swapped
    /\ shape swapped = shape logits
    /\ forall b, (b < 2)%nat ->
         exists s0 s1 s2 s3,
           row 4 (data logits) b = [s0; s1; s2; s3]
           /\ row 4 (data swapped) b = [s1; s0; s2; s3].
Proof.
  apply (ModelsMore.swapped_endings_swap_logits
           ModelsExamples.two_encodes_batch).
Defined.

Lemma wrong_number_of_labels_raises_witness :
  forward_two (Some (Tensor [3%nat] [0%Z; 1%Z; 2%Z]))
  = (Raise ValueError, model).
Proof.
  apply (ModelsMore.wrong_number_of_labels_raises (Metadata := unit)
           ModelsExamples.two_encodes_batch
           (Tensor [3%nat] [0%Z; 1%Z; 2%Z]) (n := 3) None).
  - reflexivity.
  - discriminate.
Defined.

Lemma label_out_of_range_raises_witness :
  forward_two (Some (Tensor [2%nat] [0%Z; 7%Z])) = (Raise IndexError, model).
Proof.
  apply (ModelsMore.label_out_of_range_raises (Metadata := unit)
           ModelsExamples.two_encodes_batch
           (Tensor [2%nat] [0%Z; 7%Z]) (t := 7%Z) None).
  - discriminate.
  - reflexivity.
  - right. left. reflexivity.
  - discriminate.
  - right. apply Z.leb_le. reflexivity.
Defined.

Lemma loss_is_mean_negative_log_probability_witness :
  exists logits probabilities loss a,
    forward_two (Some (Tensor [2%nat] [0%Z; 3%Z]))
    = (Ok [("logits", OutTensor logits);
           ("probabilities", OutTensor probabilities);
           ("loss", OutLoss (Num loss))],
       set_accuracy model a)
    /\ loss
       = ((ln (sum (map exp (row 4 (data logits) 0)))
           - nth 0 (data logits) 0
           + (ln (sum (map exp (row 4 (data logits) 1)))
              - nth 7 (data logits) 0 + 0)) / INR 2)%R
    /\ loss
       = ((- ln (nth 0 (data probabilities) 0)
           + (- ln (nth 7 (data probabilities) 0) + 0)) / INR 2)%R
    /\ (0 <= loss)%R
    /\ Metrics.total_count a = 2%nat.
Proof.
  apply (ModelsMore.loss_is_mean_negative_log_probability (Metadata := unit)
           ModelsExamples.two_encodes_batch
           (Tensor [2%nat] [0%Z; 3%Z]) None).
  - apply le_n.
  - reflexivity.
  - reflexivity.
  - repeat constructor; discriminate.
Defined.

End MoreExamples.
